(** * capybara.py: the matcher facade ([capybara/node/matchers.py]) and the
      exception hierarchy ([capybara/exceptions.py])

    The development has two parts.  The first embeds the program: the
    exception classes with Python's [issubclass]/[isinstance], a small
    state-and-exception monad for method bodies, and the methods of
    [MatchersMixin] (their bodies, and how a call binds its arguments to
    their parameters) written over the collaborators they call
    ([SelectorQuery], [TextQuery], [resolve_for], [synchronize]), which
    are defined in other modules of the library and are an interface here;
    a model of them that follows the design document is given as an
    instance.  The second part states and proves the properties of the
    facade. *)

From Stdlib Require Import List String Ascii Bool Arith ZArith Lia PeanoNat.
From Stdlib Require Import DecimalString.
Import ListNotations.
Local Open Scope string_scope.
Local Open Scope list_scope.

Set Implicit Arguments.
Unset Strict Implicit.
Set Default Proof Using "Type".

(* ================================================================== *)
(** * Part I. The program *)
(* ================================================================== *)

(** ** Exception classes ([capybara/exceptions.py]) *)

Module Exceptions.

Scheme All for list.

(** The nine classes of [exceptions.py], Python's two root classes they
    rest on, and [OtherClass] for any class declared elsewhere (the
    built-in [TypeError], a driver's own errors, a user's subclass of a
    library error) with the list of its direct bases. *)
Inductive exc_class : Type :=
| BaseException
| Exception
| CapybaraError
| ElementNotFound
| ModalNotFound
| Ambiguous
| ExpectationNotMet
| FileNotFound
| UnselectNotAllowed
| ScopeError
| WindowError
| OtherClass (name : string) (direct_bases : list exc_class).

(** [bases c] is [c.__bases__]: the parenthesised class in each [class]
    statement of [exceptions.py]. *)
Definition bases (c : exc_class) : list exc_class :=
  match c with
  | BaseException => []
  | Exception => [BaseException]
  | CapybaraError => [Exception]
  | ElementNotFound => [CapybaraError]
  | ModalNotFound => [CapybaraError]
  | Ambiguous => [ElementNotFound]
  | ExpectationNotMet => [ElementNotFound]
  | FileNotFound => [CapybaraError]
  | UnselectNotAllowed => [CapybaraError]
  | ScopeError => [CapybaraError]
  | WindowError => [CapybaraError]
  | OtherClass _ bs => bs
  end.

(** Identity of classes, decided structurally. *)
Fixpoint class_eqb (c d : exc_class) {struct c} : bool :=
  match c, d with
  | BaseException, BaseException => true
  | Exception, Exception => true
  | CapybaraError, CapybaraError => true
  | ElementNotFound, ElementNotFound => true
  | ModalNotFound, ModalNotFound => true
  | Ambiguous, Ambiguous => true
  | ExpectationNotMet, ExpectationNotMet => true
  | FileNotFound, FileNotFound => true
  | UnselectNotAllowed, UnselectNotAllowed => true
  | ScopeError, ScopeError => true
  | WindowError, WindowError => true
  | OtherClass n bs, OtherClass m ds =>
      String.eqb n m &&
      (fix all2 (l1 l2 : list exc_class) {struct l1} : bool :=
         match l1, l2 with
         | [], [] => true
         | x :: xs, y :: ys => class_eqb x y && all2 xs ys
         | _, _ => false
         end) bs ds
  | _, _ => false
  end.

(** Length of the longest chain of bases above a class; it bounds the
    search of [issubclass]. *)
Fixpoint height (c : exc_class) : nat :=
  match c with
  | BaseException => 0
  | Exception => 1
  | CapybaraError => 2
  | ElementNotFound => 3
  | ModalNotFound => 3
  | Ambiguous => 4
  | ExpectationNotMet => 4
  | FileNotFound => 3
  | UnselectNotAllowed => 3
  | ScopeError => 3
  | WindowError => 3
  | OtherClass _ bs => S (list_max (map height bs))
  end.

(** [c] is [d], or one of [c]'s bases is a subclass of [d], looking at most
    [fuel] levels up. *)
Fixpoint subclass_upto (fuel : nat) (c d : exc_class) : bool :=
  class_eqb c d ||
  match fuel with
  | 0 => false
  | S fuel' => existsb (fun b => subclass_upto fuel' b d) (bases c)
  end.

(** Python's [issubclass(c, d)]. *)
Definition issubclass (c d : exc_class) : bool :=
  subclass_upto (height c) c d.

(** The relation [issubclass] decides: the reflexive and transitive closure
    of "is a direct base of". *)
Inductive Subclass : exc_class -> exc_class -> Prop :=
| Subclass_refl : forall c, Subclass c c
| Subclass_step : forall c b d, In b (bases c) -> Subclass b d -> Subclass c d.

(** A raised exception: its class and the message it was built with. *)
Record exn : Type := mk_exn { exn_class : exc_class; exn_message : string }.

(** Python's [isinstance(e, d)]; an [except d:] clause handles [e] exactly
    when it holds. *)
Definition isinstance (e : exn) (d : exc_class) : bool :=
  issubclass (exn_class e) d.

(** The built-in [TypeError], raised by a call whose arguments do not fit. *)
Definition TypeError : exc_class := OtherClass "TypeError" [Exception].

(** The classes [exceptions.py] declares, in the order of the file. *)
Definition library_classes : list exc_class :=
  [CapybaraError; ElementNotFound; ModalNotFound; Ambiguous; ExpectationNotMet;
   FileNotFound; UnselectNotAllowed; ScopeError; WindowError].

End Exceptions.
Export Exceptions.

(** ** Python values and call arguments *)

(** The values that reach the facade as arguments.  [PyExpr] is an
    expression built with the [xpath-py] package, kept as the text it
    renders to. *)
Inductive pyval : Type :=
| PyNone
| PyBool (b : bool)
| PyInt (z : Z)
| PyStr (s : string)
| PyExpr (rendered : string).

(** Python's truth value of an object, as [not x] and [if x] test it. *)
Definition truthy (v : pyval) : bool :=
  match v with
  | PyNone => false
  | PyBool b => b
  | PyInt z => negb (Z.eqb z 0)
  | PyStr s => negb (String.eqb s "")
  | PyExpr _ => true
  end.

(** [*args] is a tuple of values and [**kwargs] a mapping from names to
    values, in the order the caller wrote them. *)
Definition pyargs : Type := list pyval.
Definition pykwargs : Type := list (string * pyval).

(** ** Outcomes and the monad of method bodies *)

(** A call either returns a value or raises. *)
Inductive outcome (A : Type) : Type :=
| Return (a : A)
| Raise (e : exn).
Arguments Return {A} a.
Arguments Raise {A} e.

Module Effects.
Section Monad.
(** [W] is everything a call can read or change: the document, the
    clock, the process-wide settings, the state of live objects. *)
Variable W : Type.

Definition M (A : Type) : Type := W -> outcome A * W.

Definition ret {A} (a : A) : M A := fun w => (Return a, w).

Definition raise {A} (e : exn) : M A := fun w => (Raise e, w).

Definition bind {A B} (m : M A) (k : A -> M B) : M B :=
  fun w =>
    match m w with
    | (Return a, w') => k a w'
    | (Raise e, w') => (Raise e, w')
    end.

(** [try: body / except c: handler]: the handler runs when [body] raises
    an instance of [c], in the state [body] left; any other exception
    goes on to the caller. *)
Definition try_except {A} (body : M A) (c : exc_class) (handler : M A) : M A :=
  fun w =>
    match body w with
    | (Return a, w') => (Return a, w')
    | (Raise e, w') => if isinstance e c then handler w' else (Raise e, w')
    end.
End Monad.
End Effects.
Export Effects.

Declare Scope py_scope.
Delimit Scope py_scope with py.
Notation "x <- m ;; k" := (bind m (fun x => k))
  (at level 100, m at next level, right associativity) : py_scope.
Notation "m ;;; k" := (bind m (fun _ => k))
  (at level 100, right associativity) : py_scope.

(** ** The collaborators of the facade *)

(** [matchers.py] imports [SelectorQuery] from
    [capybara.queries.selector_query] and [TextQuery] from
    [capybara.queries.text_query], and calls [self.synchronize], a method of
    the class it is mixed into.  The facade is written against this
    interface of what it uses of them. *)
Class Queries : Type := {
  (** the state calls run in; scopes ([self]); the objects passed around *)
  world : Type;
  node : Type;
  selector_query : Type;
  result : Type;
  text_query : Type;
  (** the call [SelectorQuery] of the arguments, [query.resolve_for(node)],
      [len(result)] and [result.failure_message] *)
  SelectorQuery : pyargs -> pykwargs -> M world selector_query;
  selector_resolve_for : selector_query -> node -> M world result;
  len : result -> nat;
  result_failure_message : result -> string;
  (** the call [TextQuery] of the arguments, [query.resolve_for(node)] and
      [query.failure_message]; the query object lives across attempts, so
      its message is read in the state the last resolution left *)
  TextQuery : pyargs -> pykwargs -> M world text_query;
  text_resolve_for : text_query -> node -> M world pyval;
  text_failure_message : text_query -> world -> string
}.

(** [self.synchronize], used as a decorator: it takes the function to run
    and gives the call that runs it. *)
Class Synchronizer (Q : Queries) : Type := {
  synchronize : node -> forall A : Type, M world A -> M world A
}.
Arguments synchronize {Q _} self {A} probe.

(** What the design document promises of [synchronize] (sections 4.4 and
    7), as properties a synchronizer may have.  The facade's own properties
    need neither; what a whole call does with a failing resolution does. *)
Module Contract.
Section Promises.
Context {Q : Queries} (S : Synchronizer Q).

(** The wrapped call ends with what one invocation of the probe gave: the
    value it returned, or the condition it raised, unchanged. *)
Definition outcome_of_an_attempt : Prop :=
  forall (self : node) (A : Type) (probe : M world A) (w : world),
    exists w1, synchronize self probe w = probe w1.

(** A condition outside the [ElementNotFound] family is not waited on: it
    reaches the caller as the probe raised it. *)
Definition passes_through : Prop :=
  forall (self : node) (A : Type) (probe : M world A) (w w' : world) (e : exn),
    probe w = (Raise e, w') ->
    isinstance e ElementNotFound = false ->
    synchronize self probe w = (Raise e, w').
End Promises.
End Contract.
Export Contract.

(** ** [MatchersMixin] ([capybara/node/matchers.py]) *)

(** Each definition is the body of a method, run on the parameters Python
    has bound for it: [self], the positional tuple or the named parameter,
    and [kwargs], the keywords left for [**kwargs].  How a call binds
    these, and when it raises [TypeError] instead of running the body, is
    [Calls] below. *)
Module MatchersMixin.
Section Methods.
Context {Q : Queries} {S : Synchronizer Q}.
Local Open Scope py_scope.

(** The function [assert_selector] defines inside itself and hands to
    [self.synchronize]; [not len(result)] holds when the length is 0. *)
Definition assert_selector_inner (self : node) (query : selector_query)
  : M world bool :=
  result <- selector_resolve_for query self ;;
  if Nat.eqb (len result) 0
  then raise (mk_exn ExpectationNotMet (result_failure_message result))
  else ret true.

Definition assert_selector (self : node) (args : pyargs) (kwargs : pykwargs)
  : M world bool :=
  query <- SelectorQuery args kwargs ;;
  synchronize self (assert_selector_inner self query).

Definition has_selector (self : node) (args : pyargs) (kwargs : pykwargs)
  : M world bool :=
  try_except
    (assert_selector self args kwargs ;;; ret true)
    ExpectationNotMet
    (ret false).

(** The body of [has_xpath]: [query] is the value bound to the parameter and
    [kwargs] the remaining keywords; see [call_has_xpath] for the call. *)
Definition has_xpath (self : node) (query : pyval) (kwargs : pykwargs)
  : M world bool :=
  has_selector self [PyStr "xpath"; query] kwargs.

(** The body of [has_css]: [path] is the value bound to the parameter and
    [kwargs] the remaining keywords; see [call_has_css] for the call. *)
Definition has_css (self : node) (path : pyval) (kwargs : pykwargs)
  : M world bool :=
  has_selector self [PyStr "css"; path] kwargs.

(** The body of [has_button]: [locator] is the value bound to the parameter and
    [kwargs] the remaining keywords; see [call_has_button] for the call. *)
Definition has_button (self : node) (locator : pyval) (kwargs : pykwargs)
  : M world bool :=
  has_selector self [PyStr "button"; locator] kwargs.

(** The body of [has_link]: [locator] is the value bound to the parameter and
    [kwargs] the remaining keywords; see [call_has_link] for the call. *)
Definition has_link (self : node) (locator : pyval) (kwargs : pykwargs)
  : M world bool :=
  has_selector self [PyStr "link"; locator] kwargs.

(** The function [assert_text] defines inside itself; the message is
    the query's, read after the resolution that failed. *)
Definition assert_text_inner (self : node) (query : text_query)
  : M world bool :=
  matches <- text_resolve_for query self ;;
  if negb (truthy matches)
  then fun w => raise (mk_exn ExpectationNotMet (text_failure_message query w)) w
  else ret true.

Definition assert_text (self : node) (args : pyargs) (kwargs : pykwargs)
  : M world bool :=
  query <- TextQuery args kwargs ;;
  synchronize self (assert_text_inner self query).

Definition has_text (self : node) (args : pyargs) (kwargs : pykwargs)
  : M world bool :=
  try_except
    (assert_text self args kwargs)
    ExpectationNotMet
    (ret false).

Definition has_content : node -> pyargs -> pykwargs -> M world bool :=
  has_text.
End Methods.
End MatchersMixin.
Export MatchersMixin.

(** ** Calling the methods: Python's binding of arguments *)

(** What can go wrong when a call's arguments are bound to the parameters
    of a [def]. *)
Inductive binding_problem : Type :=
| MultipleValues (parameter : string)
| TooManyPositional (takes given : nat)
| MissingPositional (parameter : string).

(** The wording of the [TypeError] is the interpreter's and varies between
    versions of Python; the class does not. *)
Class Interpreter : Type := {
  binding_message : string -> binding_problem -> string
}.

Module Calls.

Definition binding_error {I : Interpreter} (method : string)
  (problem : binding_problem) : exn :=
  mk_exn TypeError (binding_message method problem).

Definition has_keyword (name : string) (kwargs : pykwargs) : bool :=
  existsb (fun kv => String.eqb (fst kv) name) kwargs.

(** The keywords of a call to a method [def m(self, p, **kwargs)], taken in
    the order given: one named like a parameter whose slot is filled
    ([self] always is, [p] when a positional argument or an earlier
    keyword gave it) raises; one named [p] fills the slot; any other goes
    to [**kwargs]. *)
Fixpoint bind_keywords (p : string) (slot : option pyval) (kwargs : pykwargs)
  : binding_problem + (option pyval * pykwargs) :=
  match kwargs with
  | [] => inr (slot, [])
  | (k, v) :: rest =>
      if String.eqb k "self" then inl (MultipleValues "self")
      else if String.eqb k p then
        match slot with
        | Some _ => inl (MultipleValues p)
        | None => bind_keywords p (Some v) rest
        end
      else
        match bind_keywords p slot rest with
        | inl problem => inl problem
        | inr (slot', kwargs') => inr (slot', (k, v) :: kwargs')
        end
  end.

(** Binding a call, with positional arguments [args] and keywords
    [kwargs], of a method [def m(self, p, **kwargs)]: the first positional argument fills [p],
    the keywords are bound, and then a surplus of positional arguments or
    an empty slot is an error. *)
Definition bind_one (p : string) (args : pyargs) (kwargs : pykwargs)
  : binding_problem + (pyval * pykwargs) :=
  match bind_keywords p (hd_error args) kwargs with
  | inl problem => inl problem
  | inr (slot, kwargs') =>
      if Nat.ltb 1 (List.length args)
      then inl (TooManyPositional 2 (S (List.length args)))
      else
        match slot with
        | Some v => inr (v, kwargs')
        | None => inl (MissingPositional p)
        end
  end.

(** Binding a call of a method [def m(self, *args, **kwargs)]: every
    positional argument goes to [*args], and only a keyword named [self]
    is refused. *)
Definition bind_variadic (kwargs : pykwargs) : binding_problem + pykwargs :=
  if has_keyword "self" kwargs then inl (MultipleValues "self") else inr kwargs.

Section Methods.
Context {Q : Queries} {S : Synchronizer Q} {I : Interpreter}.

(** A call of [def has_selector(self, *args, **kwargs)]. *)
Definition call_has_selector (self : node) (args : pyargs) (kwargs : pykwargs)
  : M world bool :=
  match bind_variadic kwargs with
  | inl problem => raise (binding_error "has_selector" problem)
  | inr kwargs' => has_selector self args kwargs'
  end.

(** A call of one of the four methods with a named parameter. *)
Definition call_named (method p : string)
  (body : node -> pyval -> pykwargs -> M world bool)
  (self : node) (args : pyargs) (kwargs : pykwargs) : M world bool :=
  match bind_one p args kwargs with
  | inl problem => raise (binding_error method problem)
  | inr (v, kwargs') => body self v kwargs'
  end.

(** [def has_xpath(self, query, **kwargs)] *)
Definition call_has_xpath : node -> pyargs -> pykwargs -> M world bool :=
  call_named "has_xpath" "query" has_xpath.

(** [def has_css(self, path, **kwargs)] *)
Definition call_has_css : node -> pyargs -> pykwargs -> M world bool :=
  call_named "has_css" "path" has_css.

(** [def has_button(self, locator, **kwargs)] *)
Definition call_has_button : node -> pyargs -> pykwargs -> M world bool :=
  call_named "has_button" "locator" has_button.

(** [def has_link(self, locator, **kwargs)] *)
Definition call_has_link : node -> pyargs -> pykwargs -> M world bool :=
  call_named "has_link" "locator" has_link.
End Methods.
End Calls.
Export Calls.

(** ** The synchronization engine *)

(** What the engine needs of the state: a clock, a way to let time pass,
    and the two process-wide settings. *)
Class Timing (Q : Queries) : Type := {
  now : world -> nat;
  sleep : nat -> world -> world;
  default_max_wait_time : world -> nat;
  retry_interval : nat
}.

Module Engine.
Section Synchronize.
Context {Q : Queries} {T : Timing Q}.

(** Modelled from the spec: the retry loop of [synchronize] (design
    document, section 4.4); the method is defined by the class the mixin is
    mixed into, outside [matchers.py].  The probe is invoked;
    a normal return is returned at once; a condition of the
    [ElementNotFound] kind is raised again, unchanged, once the deadline
    has passed, and otherwise the loop pauses for [retry_interval] and
    invokes the probe again; a condition of any other kind is not the
    engine's to wait on and goes to the caller.  [retries] bounds the
    number of pauses, which makes the loop total; see
    [retry_budget_suffices] for why the bound is never what ends it. *)
Fixpoint retry {A} (retries : nat) (deadline : nat) (probe : M world A)
  (w : world) : outcome A * world :=
  match probe w with
  | (Return a, w1) => (Return a, w1)
  | (Raise e, w1) =>
      if isinstance e ElementNotFound then
        if Nat.leb deadline (now w1) then (Raise e, w1)
        else
          match retries with
          | 0 => (Raise e, w1)
          | S retries' => retry retries' deadline probe (sleep retry_interval w1)
          end
      else (Raise e, w1)
  end.

(** Modelled from the spec: [synchronize] (section 4.4), defined outside
    [matchers.py], with the default wait time, as [matchers.py] uses it.
    Start time and deadline ([start + wait_time]) are fixed on entry. *)
Definition spec_synchronize (self : node) (A : Type) (probe : M world A)
  : M world A :=
  fun w =>
    retry (default_max_wait_time w) (now w + default_max_wait_time w) probe w.

#[export] Instance spec_synchronizer : Synchronizer Q :=
  {| synchronize := spec_synchronize |}.
End Synchronize.
End Engine.

(** ** A model of the collaborators, after the design document *)

Module Model.

(** *** Strings *)

(** [needle] occurs in [hay]. *)
Fixpoint contains (hay needle : string) : bool :=
  String.prefix needle hay ||
  match hay with
  | EmptyString => false
  | String _ rest => contains rest needle
  end.

(** Space, tab, line feed, vertical tab, form feed, carriage return. *)
Definition is_space (c : ascii) : bool :=
  let n := nat_of_ascii c in
  Nat.eqb n 32 || (Nat.leb 9 n && Nat.leb n 13).

(** Modelled from the spec: whitespace normalisation of the Text Query
    (section 4.3; [capybara.queries.text_query] is not embedded): runs of
    whitespace collapse to one space and the ends are trimmed.  A space is owed ([pending]) once whitespace follows a
    character, and is paid only when another character comes. *)
Fixpoint squeeze (pending : bool) (s : string) : string :=
  match s with
  | EmptyString => EmptyString
  | String c rest =>
      if is_space c then squeeze pending rest
      else if pending then String " " (String c (squeeze_after rest))
      else String c (squeeze_after rest)
  end
with squeeze_after (s : string) : string :=
  match s with
  | EmptyString => EmptyString
  | String c rest =>
      if is_space c then squeeze true rest
      else String c (squeeze_after rest)
  end.

Definition normalize_whitespace (s : string) : string := squeeze false s.

Definition show_nat (n : nat) : string :=
  NilZero.string_of_uint (Nat.to_uint n).

(** *** The document *)

(** Element handles are opaque to the engine. *)
Definition handle : Type := nat.

(** Modelled from the spec: what a scope offers at one instant (section
    6; the driver behind a node is an external collaborator): the lookup
    capability [find_all], the per-element predicates the filters use, and
    the rendered text. *)
Record snapshot : Type := {
  find_all : string -> string -> list handle;
  satisfies : string -> pyval -> handle -> bool;
  text : string
}.

(** Modelled from the spec: the state of a run, which the program keeps
    in the browser, the clock and module-level settings.  The document
    changes on
    its own as time passes (section 1), so the state holds what each scope
    looks like at each instant, the clock, and the process-wide settings
    (section 6).  Scopes are named by numbers.  [observed_text] is the
    one piece of state a query object keeps: the text the Text Query saw
    when it was last resolved, which its failure message quotes. *)
Record dom_world : Type := {
  clock : nat;
  max_wait : nat;
  default_selector : string;
  page : nat -> nat -> snapshot;
  observed_text : string
}.

Definition current (w : dom_world) (self : nat) : snapshot :=
  page w (clock w) self.

Definition advance (n : nat) (w : dom_world) : dom_world :=
  {| clock := clock w + n;
     max_wait := max_wait w;
     default_selector := default_selector w;
     page := page w;
     observed_text := observed_text w |}.

Definition observe (t : string) (w : dom_world) : dom_world :=
  {| clock := clock w;
     max_wait := max_wait w;
     default_selector := default_selector w;
     page := page w;
     observed_text := t |}.

(** *** Selector queries *)

(** Modelled from the spec: the Selector Specification (section 3), the
    data of a [SelectorQuery] ([capybara.queries.selector_query] is not
    embedded): kind, locator text and filters; the count constraint is
    left at its default, at least one, which is all the facade tests. *)
Record selector_spec : Type := {
  kind : string;
  locator : string;
  filters : pykwargs
}.

(** Modelled from the spec: the Result Set (section 4.1), the object
    [resolve_for] returns, whose class is defined outside [matchers.py]:
    the matched elements of one attempt, with the specification that
    produced them. *)
Record result_set : Type := {
  spec : selector_spec;
  elements : list handle
}.

Definition locator_text (v : pyval) : option string :=
  match v with
  | PyStr s => Some s
  | PyExpr s => Some s
  | _ => None
  end.

(** Modelled from the spec: the constructor of [SelectorQuery], building
    a Selector Query from the call's arguments (sections 4.5 and 6):
    [(kind, locator, **filters)], or the
    locator alone with the default kind as in the docstrings of
    [matchers.py]; any other argument list is a malformed specification
    and raises outside the [ElementNotFound] family (section 7). *)
Definition build_selector_query (args : pyargs) (kwargs : pykwargs)
  : M dom_world selector_spec :=
  fun w =>
    match args with
    | [PyStr k; l] =>
        match locator_text l with
        | Some s => (Return {| kind := k; locator := s; filters := kwargs |}, w)
        | None => (Raise (mk_exn TypeError "locator must be text or an expression"), w)
        end
    | [l] =>
        match locator_text l with
        | Some s =>
            (Return {| kind := default_selector w; locator := s; filters := kwargs |}, w)
        | None => (Raise (mk_exn TypeError "locator must be text or an expression"), w)
        end
    | _ => (Raise (mk_exn TypeError "expected a selector kind and a locator"), w)
    end.

(** The candidates of the raw lookup that pass every filter, in the order
    the lookup gave them. *)
Definition matching (d : snapshot) (q : selector_spec) : list handle :=
  filter
    (fun h => forallb (fun f => satisfies d (fst f) (snd f) h) (filters q))
    (find_all d (kind q) (locator q)).

(** Modelled from the spec: [SelectorQuery.resolve_for] (section 4.2): a
    fresh Result Set over the current snapshot; it raises nothing and
    leaves the state as it is. *)
Definition resolve_selector (q : selector_spec) (self : nat)
  : M dom_world result_set :=
  fun w => (Return {| spec := q; elements := matching (current w self) q |}, w).

(** Modelled from the spec: [failure_message] of the Result Set (sections
    4.1 and 4.2), a function of the specification and the observed count,
    of the shape "expected 1 element matching css '#foo', found 0". *)
Definition failure_message (r : result_set) : string :=
  "expected at least 1 element matching " ++ kind (spec r) ++ " '"
    ++ locator (spec r) ++ "', found " ++ show_nat (List.length (elements r)).

(** *** Text queries *)

(** Modelled from the spec: the Text Specification (section 3), the data
    of a [TextQuery]: expected text and normalisation mode. *)
Record text_spec : Type := {
  expected : string;
  exact : bool
}.

Fixpoint lookup_option (name : string) (kwargs : pykwargs) : option pyval :=
  match kwargs with
  | [] => None
  | (k, v) :: rest => if String.eqb k name then Some v else lookup_option name rest
  end.

(** Modelled from the spec: the constructor of [TextQuery]: the expected
    text and the options; anything else is malformed. *)
Definition build_text_query (args : pyargs) (kwargs : pykwargs)
  : M dom_world text_spec :=
  fun w =>
    match args with
    | [PyStr t] =>
        (Return {| expected := t;
                   exact := match lookup_option "exact" kwargs with
                            | Some v => truthy v
                            | None => false
                            end |}, w)
    | _ => (Raise (mk_exn TypeError "expected the text to look for"), w)
    end.

Definition text_matches (q : text_spec) (actual : string) : bool :=
  if exact q then String.eqb actual (expected q)
  else contains (normalize_whitespace actual) (normalize_whitespace (expected q)).

(** Modelled from the spec: [TextQuery.resolve_for] (section 4.3):
    the scope's text is fetched, normalised unless the mode is exact, and
    tested; the result is the boolean match state, and the query keeps the
    text it saw. *)
Definition resolve_text (q : text_spec) (self : nat) : M dom_world pyval :=
  fun w =>
    let actual := text (current w self) in
    (Return (PyBool (text_matches q actual)),
     observe (if exact q then actual else normalize_whitespace actual) w).

(** Modelled from the spec: [TextQuery.failure_message] (section 4.3),
    expected against actual text. *)
Definition text_message (q : text_spec) (w : dom_world) : string :=
  "expected to find text '" ++ expected q ++ "' in '" ++ observed_text w ++ "'".

(** *** The instances *)

#[export] Instance queries : Queries := {|
  world := dom_world;
  node := nat;
  selector_query := selector_spec;
  result := result_set;
  text_query := text_spec;
  SelectorQuery := build_selector_query;
  selector_resolve_for := resolve_selector;
  len := fun r => List.length (elements r);
  result_failure_message := failure_message;
  TextQuery := build_text_query;
  text_resolve_for := resolve_text;
  text_failure_message := text_message
|}.

(** One tick of the clock is the unit of time; the engine pauses one tick
    between attempts. *)
#[export] Instance timing : Timing queries := {|
  now := clock;
  sleep := advance;
  default_max_wait_time := max_wait;
  retry_interval := 1
|}.

End Model.

(** ** Small documents and drivers to run the model on *)

Module Fixture.
Import Model.

(** A page holding one link, handle 1, with text "ullamco" and id "foo". *)
Definition with_link : snapshot := {|
  find_all := fun k l =>
    if (String.eqb k "link" && (String.eqb l "foo" || String.eqb l "ullamco"))
       || (String.eqb k "css" && (String.eqb l "a" || String.eqb l "a#foo"))
       || (String.eqb k "xpath" && String.eqb l "//a")
    then [1] else [];
  satisfies := fun name v h =>
    match name, v with
    | "id", PyStr s => Nat.eqb h 1 && String.eqb s "foo"
    | "text", PyStr s => Nat.eqb h 1 && String.eqb s "ullamco"
    | _, _ => false
    end;
  text := "  labore
  ullamco "
|}.

(** The same page before the link is rendered. *)
Definition blank : snapshot := {|
  find_all := fun _ _ => [];
  satisfies := fun _ _ _ => false;
  text := ""
|}.

(** A run in which the document never changes. *)
Definition still (d : snapshot) (wait : nat) : dom_world := {|
  clock := 0;
  max_wait := wait;
  default_selector := "xpath";
  page := fun _ _ => d;
  observed_text := ""
|}.

(** A run in which the link appears at instant [t]. *)
Definition loading (t : nat) (wait : nat) : dom_world := {|
  clock := 0;
  max_wait := wait;
  default_selector := "xpath";
  page := fun i _ => if Nat.ltb i t then blank else with_link;
  observed_text := ""
|}.

(** The model's queries over a driver whose every lookup fails with [e]. *)
Definition broken_driver (e : exn) : Queries := {|
  world := dom_world;
  node := nat;
  selector_query := selector_spec;
  result := result_set;
  text_query := text_spec;
  SelectorQuery := build_selector_query;
  selector_resolve_for := fun _ _ => raise e;
  len := fun r => List.length (elements r);
  result_failure_message := failure_message;
  TextQuery := build_text_query;
  text_resolve_for := fun _ _ => raise e;
  text_failure_message := text_message
|}.

(** The wording of CPython 3 for the errors of binding. *)
#[export] Instance cpython : Interpreter := {|
  binding_message := fun method problem =>
    match problem with
    | MultipleValues p =>
        (method ++ "() got multiple values for argument '" ++ p ++ "'")%string
    | TooManyPositional takes given =>
        (method ++ "() takes " ++ show_nat takes ++ " positional arguments but "
           ++ show_nat given ++ " were given")%string
    | MissingPositional p =>
        (method ++ "() missing 1 required positional argument: '" ++ p ++ "'")%string
    end
|}.

Definition broken_timing (e : exn) : Timing (broken_driver e) :=
  @Build_Timing (broken_driver e) clock advance max_wait 1.

End Fixture.

(* ================================================================== *)
(** * Part II. Properties *)
(* ================================================================== *)

(** ** The class hierarchy *)

Module ExceptionFacts.

Lemma class_eqb_eq (c d : exc_class) : class_eqb c d = true <-> c = d.
Proof.
  revert d.
  induction c as [ | | | | | | | | | | | n bs IH] using exc_class_ind;
    intros d; destruct d as [ | | | | | | | | | | | m ds]; simpl;
    try (split; [reflexivity || discriminate | reflexivity || discriminate]).
  rewrite andb_true_iff, String.eqb_eq.
  assert (Hall : forall ds',
             (fix all2 (l1 l2 : list exc_class) {struct l1} : bool :=
                match l1, l2 with
                | [], [] => true
                | x :: xs, y :: ys => class_eqb x y && all2 xs ys
                | _, _ => false
                end) bs ds' = true <-> bs = ds').
  { induction IH as [ | b Hb bs' _ IHbs]; intros [ | d' ds'];
      try (split; [reflexivity || discriminate | reflexivity || discriminate]).
    rewrite andb_true_iff, Hb, IHbs.
    split; [intros [-> ->]; reflexivity | intros H; inversion H; auto]. }
  rewrite Hall.
  split; [intros [-> ->]; reflexivity | intros H; inversion H; auto].
Qed.

Lemma class_eqb_refl (c : exc_class) : class_eqb c c = true.
Proof. apply class_eqb_eq; reflexivity. Qed.

Lemma height_bases (c b : exc_class) : In b (bases c) -> height b < height c.
Proof.
  destruct c; simpl; try (intros [<- | []]; simpl; lia); try (intros []).
  intros Hin.
  assert (height b <= list_max (map height direct_bases)); [ | lia].
  pose proof (list_max_le (map height direct_bases)
                (list_max (map height direct_bases))) as [Hle _].
  specialize (Hle (Nat.le_refl _)).
  rewrite Forall_forall in Hle.
  apply Hle, in_map, Hin.
Qed.

Lemma subclass_upto_sound (fuel : nat) :
  forall c d, subclass_upto fuel c d = true -> Subclass c d.
Proof.
  induction fuel as [ | fuel IH]; intros c d; simpl; rewrite orb_true_iff.
  - intros [H | H]; [ | discriminate].
    apply class_eqb_eq in H; subst; constructor.
  - intros [H | H].
    + apply class_eqb_eq in H; subst; constructor.
    + apply existsb_exists in H as (b & Hb & Hsub).
      eapply Subclass_step; eauto.
Qed.

Lemma subclass_upto_complete (c d : exc_class) :
  Subclass c d -> forall fuel, height c <= fuel -> subclass_upto fuel c d = true.
Proof.
  induction 1 as [c | c b d Hb _ IH]; intros fuel Hfuel.
  - destruct fuel; simpl; rewrite class_eqb_refl; reflexivity.
  - pose proof (height_bases Hb) as Hlt.
    destruct fuel as [ | fuel]; [lia | ].
    simpl. apply orb_true_iff; right.
    apply existsb_exists. exists b; split; [assumption | ].
    apply IH; lia.
Qed.

(** [issubclass] decides the closure of the [class] statements. *)
Lemma issubclass_spec (c d : exc_class) : issubclass c d = true <-> Subclass c d.
Proof.
  split.
  - apply subclass_upto_sound.
  - intros H. apply (subclass_upto_complete H). constructor.
Qed.

Lemma Subclass_trans (a b c : exc_class) :
  Subclass a b -> Subclass b c -> Subclass a c.
Proof.
  induction 1 as [ | a x b Hx _ IH]; intros Hbc; [assumption | ].
  eapply Subclass_step; eauto.
Qed.

Lemma issubclass_refl (c : exc_class) : issubclass c c = true.
Proof. apply issubclass_spec; constructor. Qed.

Lemma issubclass_trans (a b c : exc_class) :
  issubclass a b = true -> issubclass b c = true -> issubclass a c = true.
Proof.
  rewrite !issubclass_spec. apply Subclass_trans.
Qed.

(** An instance of a class is an instance of each class above it. *)
Lemma isinstance_up (e : exn) (c d : exc_class) :
  issubclass c d = true -> isinstance e c = true -> isinstance e d = true.
Proof.
  unfold isinstance. intros Hcd Hec. exact (issubclass_trans Hec Hcd).
Qed.


Lemma isinstance_own_class (c : exc_class) (m : string) :
  isinstance (mk_exn c m) c = true.
Proof. apply issubclass_refl. Qed.

End ExceptionFacts.
Import ExceptionFacts.

(** ** The monad *)

Module EffectFacts.
Section Laws.
Variable W : Type.

Lemma bind_return {A B} (m : M W A) (k : A -> M W B) (w w' : W) (a : A) :
  m w = (Return a, w') -> bind m k w = k a w'.
Proof. unfold bind. intros ->. reflexivity. Qed.

Lemma bind_raise {A B} (m : M W A) (k : A -> M W B) (w w' : W) (e : exn) :
  m w = (Raise e, w') -> bind m k w = (Raise e, w').
Proof. unfold bind. intros ->. reflexivity. Qed.

Lemma try_except_return {A} (body handler : M W A) (c : exc_class)
  (w w' : W) (a : A) :
  body w = (Return a, w') -> try_except body c handler w = (Return a, w').
Proof. unfold try_except. intros ->. reflexivity. Qed.

Lemma try_except_handled {A} (body handler : M W A) (c : exc_class)
  (w w' : W) (e : exn) :
  body w = (Raise e, w') -> isinstance e c = true ->
  try_except body c handler w = handler w'.
Proof. unfold try_except. intros -> ->. reflexivity. Qed.

Lemma try_except_unhandled {A} (body handler : M W A) (c : exc_class)
  (w w' : W) (e : exn) :
  body w = (Raise e, w') -> isinstance e c = false ->
  try_except body c handler w = (Raise e, w').
Proof. unfold try_except. intros -> ->. reflexivity. Qed.
End Laws.
End EffectFacts.
Import EffectFacts.

(** ** The synchronization engine *)

Module EngineFacts.
Import Engine.
Section Loop.
Context {Q : Queries} {T : Timing Q}.
Variable A : Type.
Variable probe : M world A.

(** A normal return ends the loop at once. *)
Lemma retry_returns_at_once (retries deadline : nat) (w w' : world) (a : A) :
  probe w = (Return a, w') -> retry retries deadline probe w = (Return a, w').
Proof. destruct retries; simpl; intros ->; reflexivity. Qed.

(** So does a condition outside the family. *)
Lemma retry_passes_through (retries deadline : nat) (w w' : world) (e : exn) :
  probe w = (Raise e, w') -> isinstance e ElementNotFound = false ->
  retry retries deadline probe w = (Raise e, w').
Proof. destruct retries; simpl; intros -> ->; reflexivity. Qed.

(** With no retry left the loop is one invocation of the probe. *)
Lemma retry_once (deadline : nat) (w : world) :
  retry 0 deadline probe w = probe w.
Proof.
  simpl. destruct (probe w) as [[a | e] w1]; [reflexivity | ].
  destruct (isinstance e ElementNotFound), (Nat.leb deadline (now w1));
    reflexivity.
Qed.

(** Whatever the loop ends with is what its last invocation of the probe
    gave. *)
Lemma retry_outcome_of_an_attempt (retries deadline : nat) (w : world) :
  exists w1, retry retries deadline probe w = probe w1.
Proof.
  revert w. induction retries as [ | retries IH]; intros w.
  - exists w. apply retry_once.
  - simpl. destruct (probe w) as [[a | e] w1] eqn:Hp.
    + exists w. symmetry; exact Hp.
    + destruct (isinstance e ElementNotFound);
        [ | exists w; symmetry; exact Hp].
      destruct (Nat.leb deadline (now w1));
        [exists w; symmetry; exact Hp | ].
      apply IH.
Qed.

(** A probe that keeps raising the same condition of the family, on every
    state of a set the pauses do not leave, makes the loop raise it. *)
Lemma retry_keeps_failing (Inv : world -> Prop) (e : exn) :
  (forall w, Inv w -> probe w = (Raise e, w)) ->
  (forall w, Inv w -> Inv (sleep retry_interval w)) ->
  forall retries deadline w, Inv w ->
    exists w', retry retries deadline probe w = (Raise e, w') /\ Inv w'.
Proof.
  intros Hfail Hsleep retries deadline.
  induction retries as [ | retries IH]; intros w Hw.
  - exists w. rewrite retry_once. auto.
  - simpl. rewrite (Hfail w Hw).
    destruct (isinstance e ElementNotFound); [ | exists w; auto].
    destruct (Nat.leb deadline (now w)); [exists w; auto | ].
    apply IH, Hsleep, Hw.
Qed.

(** The number of retries allowed is never what ends the loop: when a
    pause moves the clock on by at least one tick and the probe does not
    turn it back, more retries change nothing. *)
Lemma retry_budget_suffices :
  0 < retry_interval ->
  (forall n w, now (sleep n w) = now w + n) ->
  (forall w, now w <= now (snd (probe w))) ->
  forall retries deadline w more,
    deadline <= now w + retries ->
    retry (retries + more) deadline probe w = retry retries deadline probe w.
Proof.
  intros Hpos Hsleep Hmono retries.
  induction retries as [ | retries IH]; intros deadline w more Hdl.
  - rewrite retry_once. simpl (0 + more).
    destruct more as [ | more]; [apply retry_once | ].
    simpl. pose proof (Hmono w) as Hw.
    destruct (probe w) as [[a | e] w1]; [reflexivity | ]. simpl in Hw.
    destruct (isinstance e ElementNotFound); [ | reflexivity].
    destruct (Nat.leb deadline (now w1)) eqn:Hle; [reflexivity | ].
    apply Nat.leb_gt in Hle. lia.
  - simpl. pose proof (Hmono w) as Hw.
    destruct (probe w) as [[a | e] w1]; [reflexivity | ]. simpl in Hw.
    destruct (isinstance e ElementNotFound); [ | reflexivity].
    destruct (Nat.leb deadline (now w1)); [reflexivity | ].
    apply IH. rewrite Hsleep. lia.
Qed.
End Loop.

Section Promises.
Context {Q : Queries} {T : Timing Q}.

(** The engine of the design document keeps both promises. *)
Lemma spec_synchronizer_outcome_of_an_attempt :
  outcome_of_an_attempt spec_synchronizer.
Proof.
  intros self A probe w. simpl. unfold spec_synchronize.
  apply retry_outcome_of_an_attempt.
Qed.

Lemma spec_synchronizer_passes_through : passes_through spec_synchronizer.
Proof.
  intros self A probe w w' e Hp He. simpl. unfold spec_synchronize.
  apply retry_passes_through; assumption.
Qed.

(** A wait time of zero is exactly one attempt. *)
Lemma zero_wait_is_one_attempt (self : node) (A : Type) (probe : M world A)
  (w : world) :
  default_max_wait_time w = 0 -> spec_synchronize self probe w = probe w.
Proof.
  intros Hz. unfold spec_synchronize. rewrite Hz. apply retry_once.
Qed.
End Promises.
End EngineFacts.
Import EngineFacts.

(** ** The [ElementNotFound] family *)

(** C4.  [Ambiguous] and [ExpectationNotMet] both specialise
    [ElementNotFound]: each names it as its base, every instance of either
    (of the class itself or of any class derived from it) is an instance of
    [ElementNotFound], and an [except ElementNotFound] clause therefore
    handles both.  The two are distinct classes, and neither is a subclass
    of the other. *)
Theorem Ambiguous_and_ExpectationNotMet_specialise_ElementNotFound :
  (bases Ambiguous = [ElementNotFound] /\ bases ExpectationNotMet = [ElementNotFound])
  /\ (forall e, isinstance e Ambiguous = true -> isinstance e ElementNotFound = true)
  /\ (forall e, isinstance e ExpectationNotMet = true ->
                isinstance e ElementNotFound = true)
  /\ (forall (W A : Type) (body handler : M W A) (e : exn) (w w' : W),
        body w = (Raise e, w') ->
        isinstance e Ambiguous = true \/ isinstance e ExpectationNotMet = true ->
        try_except body ElementNotFound handler w = handler w')
  /\ Ambiguous <> ExpectationNotMet
  /\ issubclass Ambiguous ExpectationNotMet = false
  /\ issubclass ExpectationNotMet Ambiguous = false.
Proof.
  assert (HA : issubclass Ambiguous ElementNotFound = true) by reflexivity.
  assert (HE : issubclass ExpectationNotMet ElementNotFound = true) by reflexivity.
  repeat split; try reflexivity; try discriminate.
  - intros e. apply isinstance_up, HA.
  - intros e. apply isinstance_up, HE.
  - intros W A body handler e w w' Hbody [H | H];
      (eapply try_except_handled; [eassumption | ]);
      (eapply isinstance_up; [ | exact H]); assumption.
Qed.

(** ** The facade *)

(** Goals about outcomes are closed by taking them apart. *)
Ltac outcome_crush :=
  repeat match goal with
    | |- _ /\ _ => split
    | |- _ <-> _ => split
    | |- forall _, _ => intro
    | H : exists _, _ |- _ => destruct H
    | H : _ /\ _ |- _ => destruct H
    | H : _ \/ _ |- _ => destruct H
    | H : (_, _) = (_, _) |- _ => injection H as ? ?; subst
    | H : Return _ = Return _ |- _ => injection H as H; subst
    | H : Raise _ = Raise _ |- _ => injection H as H; subst
    | H : Return _ = Raise _ |- _ => discriminate H
    | H : Raise _ = Return _ |- _ => discriminate H
    | H : exn_class ?e = _, He : isinstance ?e _ = true |- _ =>
        unfold isinstance in He; rewrite H in He; vm_compute in He;
        discriminate He
    end;
  try congruence; eauto.

Module FacadeFacts.
Section Facade.
Context {Q : Queries}.

(** What [has_selector] makes of each outcome of [assert_selector]. *)
Lemma has_selector_unfold (S : Synchronizer Q) (self : node) (args : pyargs)
  (kwargs : pykwargs) (w : world) :
  has_selector self args kwargs w =
  match assert_selector self args kwargs w with
  | (Return _, w') => (Return true, w')
  | (Raise e, w') =>
      if isinstance e ExpectationNotMet then (Return false, w') else (Raise e, w')
  end.
Proof.
  unfold has_selector, try_except, bind, ret.
  destruct (assert_selector self args kwargs w) as [[v | e] w']; reflexivity.
Qed.

(** C1.  [has_selector] returns [False] exactly when the underlying
    [assert_selector] call raises an [ExpectationNotMet], returns [True]
    exactly when that call returns, and otherwise raises the very condition
    the call raised, [Ambiguous] and a bare [ElementNotFound] included; the
    state is the one [assert_selector] left.  This holds for every scope,
    argument list and state, and whatever the queries and the synchronizer
    are. *)
Theorem has_selector_converts_only_ExpectationNotMet
  (S : Synchronizer Q) (self : node) (args : pyargs) (kwargs : pykwargs)
  (w : world) :
  (fst (has_selector self args kwargs w) = Return false <->
     exists e, fst (assert_selector self args kwargs w) = Raise e
               /\ isinstance e ExpectationNotMet = true)
  /\ (fst (has_selector self args kwargs w) = Return true <->
        exists v, fst (assert_selector self args kwargs w) = Return v)
  /\ (forall e, fst (has_selector self args kwargs w) = Raise e <->
        fst (assert_selector self args kwargs w) = Raise e
        /\ isinstance e ExpectationNotMet = false)
  /\ (forall e, fst (assert_selector self args kwargs w) = Raise e ->
        exn_class e = Ambiguous \/ exn_class e = ElementNotFound ->
        fst (has_selector self args kwargs w) = Raise e)
  /\ snd (has_selector self args kwargs w) = snd (assert_selector self args kwargs w).
Proof.
  rewrite has_selector_unfold.
  destruct (assert_selector self args kwargs w) as [[v | e] w']; simpl;
    [ | destruct (isinstance e ExpectationNotMet) eqn:He; simpl];
    outcome_crush.
Qed.

(** What the inner function of [assert_selector] does with a Result Set. *)
Lemma assert_selector_inner_resolved (self : node) (q : selector_query)
  (w1 w2 : world) (r : result) :
  selector_resolve_for q self w1 = (Return r, w2) ->
  assert_selector_inner self q w1 =
  (if Nat.eqb (len r) 0
   then Raise (mk_exn ExpectationNotMet (result_failure_message r))
   else Return true, w2).
Proof.
  intros Hr. unfold assert_selector_inner. rewrite (bind_return _ Hr).
  destruct (Nat.eqb (len r) 0); reflexivity.
Qed.

(** C2.  [assert_selector] first builds the [SelectorQuery] from its
    arguments (a failure there is the call's failure) and then runs, inside
    the synchronization wrapper, the function that resolves the query
    against the current node.  On a resolved Result Set that function
    raises [ExpectationNotMet] with exactly the set's [failure_message]
    when the set has length zero and returns [True] otherwise, so it raises
    on the empty set and on no other.  Hence, whenever the wrapper ends
    with the outcome of an attempt and the resolution itself does not
    fail, the whole call raises that condition if the attempt's set is
    empty and returns [True] if it is not. *)
Theorem assert_selector_raises_exactly_on_the_empty_result
  (S : Synchronizer Q) (self : node) (args : pyargs) (kwargs : pykwargs)
  (w : world) :
  (forall e w', SelectorQuery args kwargs w = (Raise e, w') ->
     assert_selector self args kwargs w = (Raise e, w'))
  /\ (forall q w0, SelectorQuery args kwargs w = (Return q, w0) ->
        assert_selector self args kwargs w =
        synchronize self (assert_selector_inner self q) w0)
  /\ (forall q w1 r w2, selector_resolve_for q self w1 = (Return r, w2) ->
        assert_selector_inner self q w1 =
        (if Nat.eqb (len r) 0
         then Raise (mk_exn ExpectationNotMet (result_failure_message r))
         else Return true, w2)
        /\ ((exists e, fst (assert_selector_inner self q w1) = Raise e) <-> len r = 0)
        /\ (fst (assert_selector_inner self q w1) = Return true <-> len r <> 0))
  /\ (forall q w0, SelectorQuery args kwargs w = (Return q, w0) ->
        outcome_of_an_attempt S ->
        (forall w1, exists r w2, selector_resolve_for q self w1 = (Return r, w2)) ->
        exists w1 r w2,
          selector_resolve_for q self w1 = (Return r, w2)
          /\ assert_selector self args kwargs w =
             (if Nat.eqb (len r) 0
              then Raise (mk_exn ExpectationNotMet (result_failure_message r))
              else Return true, w2)).
Proof.
  split; [ | split; [ | split]].
  - intros e w' Hq. unfold assert_selector. apply (bind_raise _ Hq).
  - intros q w0 Hq. unfold assert_selector. rewrite (bind_return _ Hq). reflexivity.
  - intros q w1 r w2 Hr.
    rewrite (assert_selector_inner_resolved Hr).
    split; [reflexivity | ].
    destruct (Nat.eqb (len r) 0) eqn:Hlen; simpl.
    + apply Nat.eqb_eq in Hlen. outcome_crush.
    + apply Nat.eqb_neq in Hlen. outcome_crush.
  - intros q w0 Hq Hsync Hres.
    unfold assert_selector. rewrite (bind_return _ Hq).
    destruct (Hsync self bool (assert_selector_inner self q) w0) as [w1 Hw1].
    destruct (Hres w1) as (r & w2 & Hr).
    exists w1, r, w2. split; [exact Hr | ].
    rewrite Hw1. apply assert_selector_inner_resolved, Hr.
Qed.

(** What the inner function of [assert_text] does with a match state. *)
Lemma assert_text_inner_resolved (self : node) (q : text_query)
  (w1 w2 : world) (m : pyval) :
  text_resolve_for q self w1 = (Return m, w2) ->
  assert_text_inner self q w1 =
  (if truthy m
   then Return true
   else Raise (mk_exn ExpectationNotMet (text_failure_message q w2)), w2).
Proof.
  intros Hr. unfold assert_text_inner. rewrite (bind_return _ Hr).
  destruct (truthy m); reflexivity.
Qed.

Lemma has_text_unfold (S : Synchronizer Q) (self : node) (args : pyargs)
  (kwargs : pykwargs) (w : world) :
  has_text self args kwargs w =
  match assert_text self args kwargs w with
  | (Return v, w') => (Return v, w')
  | (Raise e, w') =>
      if isinstance e ExpectationNotMet then (Return false, w') else (Raise e, w')
  end.
Proof. reflexivity. Qed.

(** C3.  The text forms follow the pattern of the selector forms, with a
    [TextQuery].  [assert_text] builds the query and runs, inside the
    synchronization wrapper, the function that resolves it; on a resolved
    match state that function returns [True] when the state is truthy and
    raises [ExpectationNotMet] with the query's failure message when it is
    falsy.  [has_text] turns an [ExpectationNotMet] raised by [assert_text]
    into [False], raises again any other condition, and returns what
    [assert_text] returned. *)
Theorem text_forms_follow_the_selector_pattern
  (S : Synchronizer Q) (self : node) (args : pyargs) (kwargs : pykwargs)
  (w : world) :
  (forall e w', TextQuery args kwargs w = (Raise e, w') ->
     assert_text self args kwargs w = (Raise e, w'))
  /\ (forall q w0, TextQuery args kwargs w = (Return q, w0) ->
        assert_text self args kwargs w =
        synchronize self (assert_text_inner self q) w0)
  /\ (forall q w1 m w2, text_resolve_for q self w1 = (Return m, w2) ->
        (truthy m = true -> assert_text_inner self q w1 = (Return true, w2))
        /\ (truthy m = false ->
            assert_text_inner self q w1 =
            (Raise (mk_exn ExpectationNotMet (text_failure_message q w2)), w2)))
  /\ (forall e w', assert_text self args kwargs w = (Raise e, w') ->
        isinstance e ExpectationNotMet = true ->
        has_text self args kwargs w = (Return false, w'))
  /\ (forall e w', assert_text self args kwargs w = (Raise e, w') ->
        isinstance e ExpectationNotMet = false ->
        has_text self args kwargs w = (Raise e, w'))
  /\ (forall v w', assert_text self args kwargs w = (Return v, w') ->
        has_text self args kwargs w = (Return v, w'))
  /\ (forall w', has_text self args kwargs w = (Return false, w') ->
        assert_text self args kwargs w = (Return false, w')
        \/ exists e, assert_text self args kwargs w = (Raise e, w')
                     /\ isinstance e ExpectationNotMet = true).
Proof.
  repeat match goal with |- _ /\ _ => split end.
  - intros e w' Hq. unfold assert_text. apply (bind_raise _ Hq).
  - intros q w0 Hq. unfold assert_text. rewrite (bind_return _ Hq). reflexivity.
  - intros q w1 m w2 Hr. rewrite (assert_text_inner_resolved Hr).
    split; intros ->; reflexivity.
  - intros e w' Ha He. rewrite has_text_unfold, Ha, He. reflexivity.
  - intros e w' Ha He. rewrite has_text_unfold, Ha, He. reflexivity.
  - intros v w' Ha. rewrite has_text_unfold, Ha. reflexivity.
  - intros w'. rewrite has_text_unfold.
    destruct (assert_text self args kwargs w) as [[v | e] w1];
      [ | destruct (isinstance e ExpectationNotMet) eqn:He];
      intros H; inversion H; subst; eauto.
Qed.

(** Binding the keywords of a call. *)
Lemma has_keyword_cons (name k : string) (v : pyval) (rest : pykwargs) :
  has_keyword name ((k, v) :: rest) = String.eqb k name || has_keyword name rest.
Proof. reflexivity. Qed.

(** Keywords that name no parameter all go to [**kwargs], in their order. *)
Lemma bind_keywords_clean (p : string) (slot : option pyval) (kwargs : pykwargs) :
  has_keyword "self" kwargs = false ->
  has_keyword p kwargs = false ->
  bind_keywords p slot kwargs = inr (slot, kwargs).
Proof.
  induction kwargs as [ | [k v] rest IH]; [reflexivity | ].
  rewrite !has_keyword_cons, !orb_false_iff.
  intros [Hk Hself] [Hkp Hp]. simpl.
  rewrite Hk, Hkp, (IH Hself Hp). reflexivity.
Qed.

(** A keyword named like the parameter a positional argument has filled
    is refused. *)
Lemma bind_keywords_clash (p : string) (v : pyval) (kwargs : pykwargs) :
  has_keyword "self" kwargs = false ->
  has_keyword p kwargs = true ->
  bind_keywords p (Some v) kwargs = inl (MultipleValues p).
Proof.
  induction kwargs as [ | [k x] rest IH]; [discriminate | ].
  rewrite !has_keyword_cons, orb_false_iff.
  intros [Hk Hself] Hp. simpl. rewrite Hk.
  destruct (String.eqb k p); [reflexivity | ].
  simpl in Hp. rewrite (IH Hself Hp). reflexivity.
Qed.

(** What binding leaves for [**kwargs] names no parameter of the method,
    so the call the body makes to [has_selector] always binds. *)
Lemma bind_keywords_leaves_no_parameter (p : string) (kwargs : pykwargs) :
  forall slot slot' kwargs',
    bind_keywords p slot kwargs = inr (slot', kwargs') ->
    has_keyword "self" kwargs' = false /\ has_keyword p kwargs' = false.
Proof.
  induction kwargs as [ | [k v] rest IH]; intros slot slot' kwargs'; simpl.
  - intros H. injection H as _ <-. split; reflexivity.
  - destruct (String.eqb k "self") eqn:Hk; [discriminate | ].
    destruct (String.eqb k p) eqn:Hkp.
    + destruct slot; [discriminate | ]. apply IH.
    + destruct (bind_keywords p slot rest) as [problem | [s' kw']] eqn:Hrest;
        [discriminate | ].
      intros H. injection H as _ <-.
      destruct (IH _ _ _ Hrest) as [Hself Hp].
      rewrite !has_keyword_cons, Hk, Hkp, Hself, Hp. split; reflexivity.
Qed.

(** A keyword named [self] is refused, whatever the slot holds. *)
Lemma bind_keywords_self (p : string) (slot : option pyval) (kwargs : pykwargs) :
  has_keyword p kwargs = false ->
  has_keyword "self" kwargs = true ->
  bind_keywords p slot kwargs = inl (MultipleValues "self").
Proof.
  induction kwargs as [ | [k x] rest IH]; [discriminate | ].
  rewrite !has_keyword_cons, orb_false_iff.
  intros [Hkp Hp] Hself. simpl.
  destruct (String.eqb k "self"); [reflexivity | ].
  rewrite Hkp. simpl in Hself. rewrite (IH Hp Hself). reflexivity.
Qed.

(** With the parameter filled and a keyword of its name, binding fails,
    on that keyword or on an earlier one named [self]. *)
Lemma bind_keywords_refused (p : string) (v : pyval) (kwargs : pykwargs) :
  has_keyword p kwargs = true ->
  exists parameter,
    bind_keywords p (Some v) kwargs = inl (MultipleValues parameter)
    /\ (parameter = p \/ parameter = "self").
Proof.
  induction kwargs as [ | [k x] rest IH]; [discriminate | ].
  rewrite has_keyword_cons. intros Hp. simpl.
  destruct (String.eqb k "self"); [exists "self"; auto | ].
  destruct (String.eqb k p); [exists p; auto | ].
  simpl in Hp. destruct (IH Hp) as (q & -> & Hq). exists q. auto.
Qed.

Lemma call_has_selector_clean (I : Interpreter) (S : Synchronizer Q)
  (self : node) (args : pyargs) (kwargs : pykwargs) :
  has_keyword "self" kwargs = false ->
  call_has_selector self args kwargs = has_selector self args kwargs.
Proof.
  intros Hself. unfold call_has_selector, bind_variadic. rewrite Hself.
  reflexivity.
Qed.

Lemma call_has_selector_self (I : Interpreter) (S : Synchronizer Q)
  (self : node) (args : pyargs) (kwargs : pykwargs) :
  has_keyword "self" kwargs = true ->
  call_has_selector self args kwargs
  = raise (binding_error "has_selector" (MultipleValues "self")).
Proof.
  intros Hself. unfold call_has_selector, bind_variadic. rewrite Hself.
  reflexivity.
Qed.

Lemma call_named_clean (I : Interpreter) (method p : string)
  (body : node -> pyval -> pykwargs -> M world bool)
  (self : node) (x : pyval) (kwargs : pykwargs) :
  has_keyword "self" kwargs = false ->
  has_keyword p kwargs = false ->
  call_named method p body self [x] kwargs = body self x kwargs.
Proof.
  intros Hself Hp. unfold call_named, bind_one. simpl hd_error.
  rewrite (bind_keywords_clean (Some x) Hself Hp). reflexivity.
Qed.

Lemma call_named_self (I : Interpreter) (method p : string)
  (body : node -> pyval -> pykwargs -> M world bool)
  (self : node) (x : pyval) (kwargs : pykwargs) :
  has_keyword p kwargs = false ->
  has_keyword "self" kwargs = true ->
  call_named method p body self [x] kwargs
  = raise (binding_error method (MultipleValues "self")).
Proof.
  intros Hp Hself. unfold call_named, bind_one. simpl hd_error.
  rewrite (bind_keywords_self (Some x) Hp Hself). reflexivity.
Qed.

Lemma call_named_clash (I : Interpreter) (method p : string)
  (body : node -> pyval -> pykwargs -> M world bool)
  (self : node) (x : pyval) (kwargs : pykwargs) :
  has_keyword "self" kwargs = false ->
  has_keyword p kwargs = true ->
  call_named method p body self [x] kwargs
  = raise (binding_error method (MultipleValues p)).
Proof.
  intros Hself Hp. unfold call_named, bind_one. simpl hd_error.
  rewrite (bind_keywords_clash x Hself Hp). reflexivity.
Qed.

Lemma call_named_refused (I : Interpreter) (method p : string)
  (body : node -> pyval -> pykwargs -> M world bool)
  (self : node) (x : pyval) (kwargs : pykwargs) :
  has_keyword p kwargs = true ->
  exists parameter,
    call_named method p body self [x] kwargs
    = raise (binding_error method (MultipleValues parameter))
    /\ (parameter = p \/ parameter = "self").
Proof.
  intros Hp. unfold call_named, bind_one. simpl hd_error.
  destruct (bind_keywords_refused x Hp) as (q & -> & Hq). exists q. auto.
Qed.

(** The call a body makes to [has_selector], with the keywords binding
    left it, is the body of [has_selector]. *)
Lemma bound_call_of_has_selector (I : Interpreter) (S : Synchronizer Q)
  (p : string) (args : pyargs) (kwargs kwargs' : pykwargs) (v : pyval)
  (self : node) (inner : pyargs) :
  bind_one p args kwargs = inr (v, kwargs') ->
  call_has_selector self inner kwargs' = has_selector self inner kwargs'.
Proof.
  unfold bind_one.
  destruct (bind_keywords p (hd_error args) kwargs) as [ | [slot kw]] eqn:Hb;
    [discriminate | ].
  destruct (Nat.ltb 1 (List.length args)); [discriminate | ].
  destruct slot; [ | discriminate].
  intros H. injection H as _ <-.
  apply call_has_selector_clean.
  exact (proj1 (bind_keywords_leaves_no_parameter Hb)).
Qed.

(** C5.  For every expression and every keyword mapping without a keyword
    named after the method's own parameter ([path] for [has_css], [query]
    for [has_xpath]), the call [has_css(path, **kwargs)] gives what the
    call [has_selector("css", path, **kwargs)] gives, and the call
    [has_xpath(query, **kwargs)] what [has_selector("xpath", query, **kwargs)]
    gives: the same outcome (the same boolean or the same raised condition)
    and the same final state, for every scope and every state; where the
    mapping has a keyword named [self], which no method accepts, each of
    the two calls raises the [TypeError] of its own binding.  With a
    keyword named [path] (for [has_xpath]: [query]) the call raises
    [TypeError] when the arguments are bound, before [has_selector] is
    called, and leaves the state as it was. *)
Theorem has_css_and_has_xpath_calls_are_has_selector_calls
  (I : Interpreter) (S : Synchronizer Q) (self : node) (expression : pyval)
  (kwargs : pykwargs) (w : world) :
  (has_keyword "path" kwargs = false ->
   (has_keyword "self" kwargs = false ->
    call_has_css self [expression] kwargs w =
    call_has_selector self [PyStr "css"; expression] kwargs w)
   /\ (has_keyword "self" kwargs = true ->
       call_has_css self [expression] kwargs w =
       (Raise (binding_error "has_css" (MultipleValues "self")), w)
       /\ call_has_selector self [PyStr "css"; expression] kwargs w =
          (Raise (binding_error "has_selector" (MultipleValues "self")), w)))
  /\ (has_keyword "query" kwargs = false ->
      (has_keyword "self" kwargs = false ->
       call_has_xpath self [expression] kwargs w =
       call_has_selector self [PyStr "xpath"; expression] kwargs w)
      /\ (has_keyword "self" kwargs = true ->
          call_has_xpath self [expression] kwargs w =
          (Raise (binding_error "has_xpath" (MultipleValues "self")), w)
          /\ call_has_selector self [PyStr "xpath"; expression] kwargs w =
             (Raise (binding_error "has_selector" (MultipleValues "self")), w)))
  /\ (has_keyword "path" kwargs = true ->
      exists parameter,
        call_has_css self [expression] kwargs w =
        (Raise (binding_error "has_css" (MultipleValues parameter)), w)
        /\ (parameter = "path" \/ parameter = "self"))
  /\ (has_keyword "query" kwargs = true ->
      exists parameter,
        call_has_xpath self [expression] kwargs w =
        (Raise (binding_error "has_xpath" (MultipleValues parameter)), w)
        /\ (parameter = "query" \/ parameter = "self")).
Proof.
  unfold call_has_css, call_has_xpath.
  split; [ | split; [ | split]].
  - intros Hp. split; intros Hself.
    + rewrite (call_has_selector_clean I S self _ Hself).
      rewrite (call_named_clean I _ _ self expression Hself Hp). reflexivity.
    + rewrite (call_has_selector_self I S self _ Hself).
      rewrite (call_named_self I _ _ self expression Hp Hself).
      split; reflexivity.
  - intros Hp. split; intros Hself.
    + rewrite (call_has_selector_clean I S self _ Hself).
      rewrite (call_named_clean I _ _ self expression Hself Hp). reflexivity.
    + rewrite (call_has_selector_self I S self _ Hself).
      rewrite (call_named_self I _ _ self expression Hp Hself).
      split; reflexivity.
  - intros Hp.
    destruct (call_named_refused I "has_css" has_css self expression Hp)
      as (q & -> & Hq).
    exists q. split; [reflexivity | exact Hq].
  - intros Hp.
    destruct (call_named_refused I "has_xpath" has_xpath self expression Hp)
      as (q & -> & Hq).
    exists q. split; [reflexivity | exact Hq].
Qed.

(** C6.  [has_button] and [has_link] are convenience forms: for every
    locator and every keyword mapping without a keyword named [locator],
    the call [has_button(locator, **kwargs)] is the call
    [has_selector("button", locator, **kwargs)] and the call
    [has_link(locator, **kwargs)] is the call
    [has_selector("link", locator, **kwargs)], as functions of the state:
    beyond fixing the selector kind they do nothing; where the mapping has
    a keyword named [self], which no method accepts, each call raises the
    [TypeError] of its own binding.  With a keyword named [locator] the
    call raises [TypeError] when the arguments are bound, before
    [has_selector] is called. *)
Theorem has_button_and_has_link_calls_are_has_selector_calls
  (I : Interpreter) (S : Synchronizer Q) (self : node) (locator : pyval)
  (kwargs : pykwargs) :
  (has_keyword "locator" kwargs = false ->
   (has_keyword "self" kwargs = false ->
    call_has_button self [locator] kwargs =
      call_has_selector self [PyStr "button"; locator] kwargs
    /\ call_has_link self [locator] kwargs =
         call_has_selector self [PyStr "link"; locator] kwargs)
   /\ (has_keyword "self" kwargs = true ->
       call_has_button self [locator] kwargs =
         raise (binding_error "has_button" (MultipleValues "self"))
       /\ call_has_link self [locator] kwargs =
            raise (binding_error "has_link" (MultipleValues "self"))
       /\ (forall kind,
             call_has_selector self [PyStr kind; locator] kwargs =
             raise (binding_error "has_selector" (MultipleValues "self")))))
  /\ (has_keyword "locator" kwargs = true ->
      exists parameter,
        call_has_button self [locator] kwargs =
          raise (binding_error "has_button" (MultipleValues parameter))
        /\ call_has_link self [locator] kwargs =
             raise (binding_error "has_link" (MultipleValues parameter))
        /\ (parameter = "locator" \/ parameter = "self")).
Proof.
  unfold call_has_button, call_has_link.
  split.
  - intros Hp. split; intros Hself.
    + rewrite !(call_has_selector_clean I S self _ Hself).
      rewrite !(call_named_clean I _ _ self locator Hself Hp).
      split; reflexivity.
    + rewrite !(call_named_self I _ _ self locator Hp Hself).
      repeat split. intros kind. apply call_has_selector_self, Hself.
  - intros Hp. unfold call_named, bind_one. simpl hd_error.
    destruct (bind_keywords_refused locator Hp) as (q & -> & Hq).
    exists q. repeat split. exact Hq.
Qed.

(** C7.  [has_content] is [has_text] under another name: one and the same
    operation, so for every scope, argument list, keyword mapping and state
    the two give the same outcome and the same final state. *)
Theorem has_content_is_has_text (S : Synchronizer Q) :
  @has_content Q S = @has_text Q S
  /\ forall self args kwargs w,
       has_content self args kwargs w = has_text self args kwargs w.
Proof. split; reflexivity. Qed.

(** A condition [has_selector] does not handle leaves it as it came. *)
Lemma has_selector_propagates (S : Synchronizer Q) (self : node)
  (args : pyargs) (kwargs : pykwargs) (w w' : world) (e : exn) :
  assert_selector self args kwargs w = (Raise e, w') ->
  isinstance e ExpectationNotMet = false ->
  has_selector self args kwargs w = (Raise e, w').
Proof. intros Ha He. rewrite has_selector_unfold, Ha, He. reflexivity. Qed.

Lemma has_text_propagates (S : Synchronizer Q) (self : node)
  (args : pyargs) (kwargs : pykwargs) (w w' : world) (e : exn) :
  assert_text self args kwargs w = (Raise e, w') ->
  isinstance e ExpectationNotMet = false ->
  has_text self args kwargs w = (Raise e, w').
Proof. intros Ha He. rewrite has_text_unfold, Ha, He. reflexivity. Qed.




(** Under a synchronizer that passes on what it does not wait for, a
    condition outside the family raised by the resolution is the outcome of
    the assertion. *)
Lemma assert_selector_resolution_fails (S : Synchronizer Q) (self : node)
  (args : pyargs) (kwargs : pykwargs) (w w0 w1 : world) (q : selector_query)
  (e : exn) :
  passes_through S ->
  isinstance e ElementNotFound = false ->
  SelectorQuery args kwargs w = (Return q, w0) ->
  selector_resolve_for q self w0 = (Raise e, w1) ->
  assert_selector self args kwargs w = (Raise e, w1).
Proof.
  intros Hpass Hf Hq Hr.
  unfold assert_selector. rewrite (bind_return _ Hq).
  apply Hpass; [ | exact Hf].
  unfold assert_selector_inner. apply (bind_raise _ Hr).
Qed.

Lemma assert_text_resolution_fails (S : Synchronizer Q) (self : node)
  (args : pyargs) (kwargs : pykwargs) (w w0 w1 : world) (q : text_query)
  (e : exn) :
  passes_through S ->
  isinstance e ElementNotFound = false ->
  TextQuery args kwargs w = (Return q, w0) ->
  text_resolve_for q self w0 = (Raise e, w1) ->
  assert_text self args kwargs w = (Raise e, w1).
Proof.
  intros Hpass Hf Hq Hr.
  unfold assert_text. rewrite (bind_return _ Hq).
  apply Hpass; [ | exact Hf].
  unfold assert_text_inner. apply (bind_raise _ Hr).
Qed.


(** C10.  [ModalNotFound], [FileNotFound], [UnselectNotAllowed],
    [ScopeError] and [WindowError] are subclasses of [CapybaraError] that
    lie outside the [ElementNotFound] family.  So when the assertion a
    [has_*] form delegates to raises one of them, the form raises it too
    and does not answer [False]; and when the synchronizer passes on what
    it does not wait for, one of them raised by the resolution of the
    query comes out of [has_selector], [has_text] and the other forms as
    it was raised. *)
Theorem other_library_errors_are_not_converted
  (S : Synchronizer Q) (e : exn)
  (He : In (exn_class e)
          [ModalNotFound; FileNotFound; UnselectNotAllowed; ScopeError; WindowError]) :
  (isinstance e CapybaraError = true
   /\ isinstance e ElementNotFound = false
   /\ isinstance e ExpectationNotMet = false)
  /\ (forall self args kwargs w w',
        (assert_selector self args kwargs w = (Raise e, w') ->
         has_selector self args kwargs w = (Raise e, w'))
        /\ (assert_text self args kwargs w = (Raise e, w') ->
            has_text self args kwargs w = (Raise e, w')
            /\ has_content self args kwargs w = (Raise e, w')))
  /\ (forall self x kwargs w w',
        (assert_selector self [PyStr "xpath"; x] kwargs w = (Raise e, w') ->
         has_xpath self x kwargs w = (Raise e, w'))
        /\ (assert_selector self [PyStr "css"; x] kwargs w = (Raise e, w') ->
            has_css self x kwargs w = (Raise e, w'))
        /\ (assert_selector self [PyStr "button"; x] kwargs w = (Raise e, w') ->
            has_button self x kwargs w = (Raise e, w'))
        /\ (assert_selector self [PyStr "link"; x] kwargs w = (Raise e, w') ->
            has_link self x kwargs w = (Raise e, w')))
  /\ (passes_through S ->
      forall self args kwargs w,
        (forall q w0 w1,
            SelectorQuery args kwargs w = (Return q, w0) ->
            selector_resolve_for q self w0 = (Raise e, w1) ->
            has_selector self args kwargs w = (Raise e, w1))
        /\ (forall q w0 w1,
               TextQuery args kwargs w = (Return q, w0) ->
               text_resolve_for q self w0 = (Raise e, w1) ->
               has_text self args kwargs w = (Raise e, w1)
               /\ has_content self args kwargs w = (Raise e, w1))).
Proof.
  assert (Hcls : isinstance e CapybaraError = true
                 /\ isinstance e ElementNotFound = false
                 /\ isinstance e ExpectationNotMet = false).
  { unfold isinstance. simpl in He.
    destruct He as [<- | [<- | [<- | [<- | [<- | []]]]]];
      repeat split; reflexivity. }
  destruct Hcls as (Hc & Hf & Hx).
  split; [auto | split; [ | split]].
  - intros self args kwargs w w'. split.
    + intros Ha. exact (has_selector_propagates Ha Hx).
    + intros Ha. split; exact (has_text_propagates Ha Hx).
  - intros self x kwargs w w'.
    repeat split; intros Ha; exact (has_selector_propagates Ha Hx).
  - intros Hpass self args kwargs w. split.
    + intros q w0 w1 Hq Hr.
      exact (has_selector_propagates
               (assert_selector_resolution_fails Hpass Hf Hq Hr) Hx).
    + intros q w0 w1 Hq Hr.
      split;
        exact (has_text_propagates
                 (assert_text_resolution_fails Hpass Hf Hq Hr) Hx).
Qed.

End Facade.
End FacadeFacts.

(** ** The model of the collaborators *)

Module ModelFacts.
Import Model Engine.

Lemma append_assoc (a b c : string) : ((a ++ b) ++ c = a ++ (b ++ c))%string.
Proof. induction a as [ | x a IH]; simpl; [reflexivity | rewrite IH; reflexivity]. Qed.

Lemma prefix_append (s t : string) : String.prefix s (s ++ t) = true.
Proof.
  induction s as [ | c s IH]; simpl; [destruct t; reflexivity | ].
  destruct (ascii_dec c c) as [_ | Hne]; [exact IH | contradiction Hne; reflexivity].
Qed.

Lemma contains_prefix (hay needle : string) :
  String.prefix needle hay = true -> contains hay needle = true.
Proof. destruct hay; simpl; intros ->; reflexivity. Qed.

(** A text that was put together around [needle] contains it. *)
Lemma contains_append (before needle after : string) :
  contains (before ++ needle ++ after) needle = true.
Proof.
  induction before as [ | c before IH]; simpl.
  - apply contains_prefix, prefix_append.
  - rewrite IH. apply orb_true_r.
Qed.

(** The failure message names the kind and the locator of the query. *)
Lemma failure_message_mentions (r : result_set) :
  contains (failure_message r) (kind (spec r)) = true
  /\ contains (failure_message r) (locator (spec r)) = true.
Proof.
  unfold failure_message. split.
  - apply contains_append.
  - rewrite <- (append_assoc (kind (spec r)) " '").
    rewrite <- (append_assoc "expected at least 1 element matching ").
    apply contains_append.
Qed.

(** Building a query reads the settings and changes nothing. *)
Lemma build_selector_query_pure (args : pyargs) (kwargs : pykwargs)
  (w w0 : dom_world) (o : outcome selector_spec) :
  build_selector_query args kwargs w = (o, w0) -> w0 = w.
Proof.
  unfold build_selector_query.
  repeat match goal with
    | |- context [match ?x with _ => _ end] => destruct x
    end;
    intros H; injection H as _ <-; reflexivity.
Qed.

(** On a scope where nothing matches, the inner function of
    [assert_selector] raises, and leaves the state alone. *)
Lemma assert_selector_inner_no_match (self : nat) (q : selector_spec)
  (w : dom_world) :
  matching (current w self) q = [] ->
  assert_selector_inner self q w =
  (Raise (mk_exn ExpectationNotMet
            (failure_message {| spec := q; elements := [] |})), w).
Proof.
  intros Hnone.
  unfold assert_selector_inner, bind. simpl.
  unfold resolve_selector. rewrite Hnone. reflexivity.
Qed.

(** In the model the retries allowed are never what ends the engine's
    loop: a probe that does not turn the clock back is given up on only
    once the deadline has passed. *)
Lemma spec_engine_never_runs_out (A : Type) (probe : M dom_world A) :
  (forall w, clock w <= clock (snd (probe w))) ->
  forall w more,
    retry (max_wait w + more) (clock w + max_wait w) probe w =
    spec_synchronize 0 probe w.
Proof.
  intros Hmono w more. unfold spec_synchronize.
  apply (@retry_budget_suffices queries timing A probe);
    [ simpl; lia | reflexivity | exact Hmono | simpl; lia ].
Qed.

(** C9.  Take a selector specification, built from the arguments of the
    call, and a scope in which no element matches it at any instant from
    the call on.  Then, with the engine of the design document,
    [has_selector] returns [False] and [assert_selector] raises
    [ExpectationNotMet], and the message of that condition contains the
    specification's selector kind and its locator text. *)
Theorem no_match_is_False_and_a_message_naming_kind_and_locator
  (self : nat) (args : pyargs) (kwargs : pykwargs) (w w0 : dom_world)
  (q : selector_spec)
  (Hbuilt : build_selector_query args kwargs w = (Return q, w0))
  (Hnone : forall t, clock w <= t -> matching (page w t self) q = []) :
  exists (msg : string) (w' : dom_world),
    assert_selector self args kwargs w = (Raise (mk_exn ExpectationNotMet msg), w')
    /\ has_selector self args kwargs w = (Return false, w')
    /\ contains msg (kind q) = true
    /\ contains msg (locator q) = true.
Proof.
  pose proof (build_selector_query_pure Hbuilt) as ->.
  set (r := {| spec := q; elements := [] |}).
  set (Inv := fun w1 : dom_world => page w1 = page w /\ clock w <= clock w1).
  assert (Hfail : forall w1, Inv w1 ->
            assert_selector_inner self q w1 =
            (Raise (mk_exn ExpectationNotMet (failure_message r)), w1)).
  { intros w1 [Hpage Hclock]. apply assert_selector_inner_no_match.
    unfold current. rewrite Hpage. apply Hnone, Hclock. }
  assert (Hsleep : forall w1, Inv w1 -> Inv (sleep retry_interval w1)).
  { intros w1 [Hpage Hclock]. split; simpl; [exact Hpage | lia]. }
  assert (Hw : Inv w) by (split; [reflexivity | lia]).
  destruct (@retry_keeps_failing queries timing bool
              (@assert_selector_inner queries self q) Inv _ Hfail Hsleep
              (max_wait w) (clock w + max_wait w) w Hw)
    as (w' & Hretry & _).
  assert (Ha : assert_selector self args kwargs w =
               (Raise (mk_exn ExpectationNotMet (failure_message r)), w')).
  { unfold assert_selector.
    rewrite (bind_return (W := dom_world) _ Hbuilt). exact Hretry. }
  exists (failure_message r), w'.
  split; [exact Ha | split].
  - rewrite FacadeFacts.has_selector_unfold, Ha. reflexivity.
  - exact (failure_message_mentions r).
Qed.

End ModelFacts.

(** ** Runs of the model *)

Module Runs.
Import Model Engine Fixture.

(** The link of the page is found by its id, at once. *)
Example has_link_by_id :
  has_link 0 (PyStr "foo") [] (still with_link 5) = (Return true, still with_link 5).
Proof. reflexivity. Qed.

(** A selector that matches nothing: [False] once the wait time is over. *)
Example has_selector_without_match :
  has_selector 0 [PyStr "css"; PyStr "a#bar"] [] (still with_link 5)
  = (Return false, advance 5 (still with_link 5)).
Proof. reflexivity. Qed.

Example assert_selector_without_match :
  assert_selector 0 [PyStr "css"; PyStr "a#bar"] [] (still with_link 5)
  = (Raise (mk_exn ExpectationNotMet
              "expected at least 1 element matching css 'a#bar', found 0"),
     advance 5 (still with_link 5)).
Proof. reflexivity. Qed.

(** The link is rendered while the engine waits: [True] at that instant. *)
Example assert_selector_waits_for_the_link :
  assert_selector 0 [PyStr "css"; PyStr "a"] [("id", PyStr "foo")] (loading 3 5)
  = (Return true, advance 3 (loading 3 5)).
Proof. reflexivity. Qed.

(** Whitespace is normalised on both sides. *)
Example has_text_normalises :
  fst (has_text 0 [PyStr "labore   ullamco"] [] (still with_link 0)) = Return true
  /\ fst (has_text 0 [PyStr "labore ullamco"] [("exact", PyBool true)]
            (still with_link 0)) = Return false.
Proof. split; reflexivity. Qed.

(** An [Ambiguous] raised by the lookups is waited on by the engine and
    then leaves [has_selector] as it is. *)
Example has_selector_lets_Ambiguous_through :
  @has_selector (broken_driver (mk_exn Ambiguous "2 elements match"))
    (@spec_synchronizer _ (broken_timing _)) 0 [PyStr "css"; PyStr "a"] []
    (still with_link 2)
  = (Raise (mk_exn Ambiguous "2 elements match"), advance 2 (still with_link 2)).
Proof. reflexivity. Qed.

(** Counterexample for C5 as first stated, for every keyword mapping: a
    keyword named [path].  The call of [has_css] raises [TypeError] when
    its arguments are bound; the call of [has_selector] hands the keyword
    on as a filter and answers [False]. *)
Lemma has_css_call_with_a_keyword_named_path :
  @call_has_css queries spec_synchronizer cpython 0
    [PyStr "a"] [("path", PyStr "b")] (still with_link 2)
  = (Raise (mk_exn TypeError "has_css() got multiple values for argument 'path'"),
     still with_link 2)
  /\ @call_has_selector queries spec_synchronizer cpython 0
       [PyStr "css"; PyStr "a"] [("path", PyStr "b")] (still with_link 2)
     = (Return false, advance 2 (still with_link 2))
  /\ @call_has_css queries spec_synchronizer cpython 0
       [PyStr "a"] [("path", PyStr "b")] (still with_link 2)
     <> @call_has_selector queries spec_synchronizer cpython 0
          [PyStr "css"; PyStr "a"] [("path", PyStr "b")] (still with_link 2).
Proof.
  split; [reflexivity | split; [reflexivity | ]].
  intros H. vm_compute in H. discriminate H.
Qed.

(** Witness for C5: a filter on the id names no parameter of [has_css]. *)
Lemma has_css_and_has_xpath_calls_are_has_selector_calls_witness :
  (has_keyword "self" [("id", PyStr "foo")] = false
   /\ has_keyword "path" [("id", PyStr "foo")] = false)
  /\ @call_has_css queries spec_synchronizer cpython 0
       [PyStr "a"] [("id", PyStr "foo")] (still with_link 2)
     = @call_has_selector queries spec_synchronizer cpython 0
         [PyStr "css"; PyStr "a"] [("id", PyStr "foo")] (still with_link 2).
Proof.
  split; [split; reflexivity | ].
  exact (proj1 (proj1 (@FacadeFacts.has_css_and_has_xpath_calls_are_has_selector_calls
                         queries cpython spec_synchronizer 0 (PyStr "a")
                         [("id", PyStr "foo")] (still with_link 2))
                  eq_refl)
           eq_refl).
Defined.

(** Counterexample for C6 as first stated: a keyword named [locator].  The
    call of [has_link] raises [TypeError] when its arguments are bound;
    the call of [has_selector] hands the keyword on as a filter and
    answers [False]. *)
Lemma has_link_call_with_a_keyword_named_locator :
  @call_has_link queries spec_synchronizer cpython 0
    [PyStr "foo"] [("locator", PyStr "x")] (still with_link 2)
  = (Raise (mk_exn TypeError
              "has_link() got multiple values for argument 'locator'"),
     still with_link 2)
  /\ @call_has_selector queries spec_synchronizer cpython 0
       [PyStr "link"; PyStr "foo"] [("locator", PyStr "x")] (still with_link 2)
     = (Return false, advance 2 (still with_link 2))
  /\ @call_has_link queries spec_synchronizer cpython 0
       [PyStr "foo"] [("locator", PyStr "x")] (still with_link 2)
     <> @call_has_selector queries spec_synchronizer cpython 0
          [PyStr "link"; PyStr "foo"] [("locator", PyStr "x")] (still with_link 2).
Proof.
  split; [reflexivity | split; [reflexivity | ]].
  intros H. vm_compute in H. discriminate H.
Qed.

(** Witness for C6: the link of the page, found by its id and its text. *)
Lemma has_button_and_has_link_calls_are_has_selector_calls_witness :
  (has_keyword "self" [("text", PyStr "ullamco")] = false
   /\ has_keyword "locator" [("text", PyStr "ullamco")] = false)
  /\ @call_has_link queries spec_synchronizer cpython 0
       [PyStr "foo"] [("text", PyStr "ullamco")]
     = @call_has_selector queries spec_synchronizer cpython 0
         [PyStr "link"; PyStr "foo"] [("text", PyStr "ullamco")].
Proof.
  split; [split; reflexivity | ].
  exact (proj2 (proj1 (proj1 (@FacadeFacts.has_button_and_has_link_calls_are_has_selector_calls
                                queries cpython spec_synchronizer 0 (PyStr "foo")
                                [("text", PyStr "ullamco")])
                         eq_refl)
                  eq_refl)).
Defined.

(** Witness for C2: on the page with one link the engine keeps the promise
    the theorem asks of the synchronizer, the resolution never fails, and
    the call for [a#bar] ends as the emptiness of a resolved Result Set
    says. *)
Lemma assert_selector_raises_exactly_on_the_empty_result_witness :
  exists (w1 : dom_world) (r : result_set) (w2 : dom_world),
    resolve_selector {| kind := "css"; locator := "a#bar"; filters := [] |} 0 w1
    = (Return r, w2)
    /\ @assert_selector queries spec_synchronizer 0
         [PyStr "css"; PyStr "a#bar"] [] (still with_link 5)
       = (if Nat.eqb (List.length (elements r)) 0
          then Raise (mk_exn ExpectationNotMet (failure_message r))
          else Return true, w2).
Proof.
  destruct (@FacadeFacts.assert_selector_raises_exactly_on_the_empty_result
              queries spec_synchronizer 0 [PyStr "css"; PyStr "a#bar"] []
              (still with_link 5)) as (_ & _ & _ & Hcall).
  exact (Hcall {| kind := "css"; locator := "a#bar"; filters := [] |}
           (still with_link 5) eq_refl
           spec_synchronizer_outcome_of_an_attempt
           (fun w1 => ex_intro _ _ (ex_intro _ w1 eq_refl))).
Defined.


(** Witness for C10: a driver whose lookups raise [ModalNotFound]. *)
Lemma other_library_errors_are_not_converted_witness :
  In ModalNotFound
    [ModalNotFound; FileNotFound; UnselectNotAllowed; ScopeError; WindowError]
  /\ @has_selector (broken_driver (mk_exn ModalNotFound "no modal is open"))
       (@spec_synchronizer _ (broken_timing _)) 0 [PyStr "css"; PyStr "a"] []
       (still with_link 5)
     = (Raise (mk_exn ModalNotFound "no modal is open"), still with_link 5).
Proof.
  split; [simpl; auto | ].
  destruct (@FacadeFacts.other_library_errors_are_not_converted
              (broken_driver (mk_exn ModalNotFound "no modal is open"))
              (@spec_synchronizer _ (broken_timing _))
              (mk_exn ModalNotFound "no modal is open")
              (or_introl eq_refl)) as (_ & _ & _ & Hres).
  destruct (Hres (@spec_synchronizer_passes_through _ (broken_timing _))
              0 [PyStr "css"; PyStr "a"] [] (still with_link 5)) as [Hsel _].
  exact (Hsel {| kind := "css"; locator := "a"; filters := [] |}
           (still with_link 5) (still with_link 5) eq_refl eq_refl).
Defined.

(** Witness for C9: the page with one link, asked for [a#bar]. *)
Lemma no_match_is_False_and_a_message_naming_kind_and_locator_witness :
  (build_selector_query [PyStr "css"; PyStr "a#bar"] [] (still with_link 5)
   = (Return {| kind := "css"; locator := "a#bar"; filters := [] |},
      still with_link 5)
   /\ forall t, clock (still with_link 5) <= t ->
        matching (page (still with_link 5) t 0)
          {| kind := "css"; locator := "a#bar"; filters := [] |} = [])
  /\ exists (msg : string) (w' : dom_world),
       assert_selector 0 [PyStr "css"; PyStr "a#bar"] [] (still with_link 5)
       = (Raise (mk_exn ExpectationNotMet msg), w')
       /\ has_selector 0 [PyStr "css"; PyStr "a#bar"] [] (still with_link 5)
          = (Return false, w')
       /\ contains msg "css" = true
       /\ contains msg "a#bar" = true.
Proof.
  split; [split; [reflexivity | intros t _; reflexivity] | ].
  exact (@ModelFacts.no_match_is_False_and_a_message_naming_kind_and_locator
           0 [PyStr "css"; PyStr "a#bar"] [] (still with_link 5) (still with_link 5)
           {| kind := "css"; locator := "a#bar"; filters := [] |}
           eq_refl (fun t _ => eq_refl)).
Defined.

End Runs.

(** ** More on the hierarchy of [exceptions.py] *)

Module HierarchyFacts.

(** Case analysis over the classes the file declares. *)
Ltac each_library_class H :=
  unfold library_classes in H; simpl in H;
  repeat (destruct H as [<- | H]); [ .. | destruct H].

(** X1.  Every class declared in [exceptions.py] derives from
    [CapybaraError], and through it from [Exception]: an instance of any
    of them (or of a class derived from one) is handled by an
    [except CapybaraError] clause.  The converse fails: [Exception] itself
    is no [CapybaraError]. *)
Theorem every_library_error_is_a_CapybaraError
  (e : exn) (c : exc_class)
  (Hc : In c library_classes) (He : isinstance e c = true) :
  isinstance e CapybaraError = true
  /\ isinstance e Exception = true
  /\ (forall (W A : Type) (body handler : M W A) (w w' : W),
        body w = (Raise e, w') ->
        try_except body CapybaraError handler w = handler w')
  /\ issubclass Exception CapybaraError = false.
Proof.
  assert (Hup : issubclass c CapybaraError = true)
    by (each_library_class Hc; reflexivity).
  pose proof (isinstance_up Hup He) as Hcap.
  assert (Hexc : issubclass CapybaraError Exception = true) by reflexivity.
  repeat split.
  - exact Hcap.
  - exact (isinstance_up Hexc Hcap).
  - intros W A body handler w w' Hbody.
    exact (try_except_handled handler Hbody Hcap).
Qed.

(** X2.  The shape of the hierarchy.  Each declared class has exactly one
    base.  Among the declared classes, those under [ElementNotFound] are
    [ElementNotFound], [Ambiguous] and [ExpectationNotMet] and no other;
    and only [CapybaraError] and [ElementNotFound] have a declared class
    below them: every other class is a leaf, so an [except] clause naming
    it handles, of the library's own errors, that class alone. *)
Theorem shape_of_the_library_hierarchy (c : exc_class)
  (Hc : In c library_classes) :
  (exists b, bases c = [b])
  /\ (issubclass c ElementNotFound = true <->
      In c [ElementNotFound; Ambiguous; ExpectationNotMet])
  /\ (forall d, In d library_classes -> issubclass d c = true ->
        d = c
        \/ c = CapybaraError
        \/ (c = ElementNotFound /\ (d = Ambiguous \/ d = ExpectationNotMet))).
Proof.
  split; [ | split].
  - each_library_class Hc; eexists; reflexivity.
  - each_library_class Hc; vm_compute;
      (split; [ solve [intros _; tauto] || (intros H; discriminate H)
              | intros H; try reflexivity;
                repeat (destruct H as [H | H]; try discriminate H);
                destruct H ]).
  - intros d Hd.
    each_library_class Hc; each_library_class Hd; vm_compute; intros H;
      solve [discriminate H | tauto].
Qed.

End HierarchyFacts.

(** ** More on the facade *)

Module FacadeMore.
Import FacadeFacts.
Section Facade.
Context {Q : Queries}.

(** The inner functions return nothing but [True]. *)
Lemma assert_selector_inner_returns_True (self : node) (q : selector_query)
  (w1 w2 : world) (v : bool) :
  assert_selector_inner self q w1 = (Return v, w2) -> v = true.
Proof.
  unfold assert_selector_inner, bind.
  destruct (selector_resolve_for q self w1) as [[r | e] w'];
    [destruct (Nat.eqb (len r) 0) | ];
    intros H; inversion H; reflexivity.
Qed.

Lemma assert_text_inner_returns_True (self : node) (q : text_query)
  (w1 w2 : world) (v : bool) :
  assert_text_inner self q w1 = (Return v, w2) -> v = true.
Proof.
  unfold assert_text_inner, bind.
  destruct (text_resolve_for q self w1) as [[m | e] w'];
    [destruct (truthy m) | ];
    intros H; inversion H; reflexivity.
Qed.

(** X3.  No [has_*] form ever raises an [ExpectationNotMet], nor an
    instance of a class derived from it: whatever the arguments, the scope,
    the state, the queries and the synchronizer, a condition raised by
    [has_selector], [has_xpath], [has_css], [has_button], [has_link],
    [has_text] or [has_content] is not one. *)
Theorem has_forms_never_raise_ExpectationNotMet
  (S : Synchronizer Q) (self : node) (args : pyargs) (x : pyval)
  (kwargs : pykwargs) (w : world) (e : exn) :
  (fst (has_selector self args kwargs w) = Raise e ->
   isinstance e ExpectationNotMet = false)
  /\ (fst (has_xpath self x kwargs w) = Raise e ->
      isinstance e ExpectationNotMet = false)
  /\ (fst (has_css self x kwargs w) = Raise e ->
      isinstance e ExpectationNotMet = false)
  /\ (fst (has_button self x kwargs w) = Raise e ->
      isinstance e ExpectationNotMet = false)
  /\ (fst (has_link self x kwargs w) = Raise e ->
      isinstance e ExpectationNotMet = false)
  /\ (fst (has_text self args kwargs w) = Raise e ->
      isinstance e ExpectationNotMet = false)
  /\ (fst (has_content self args kwargs w) = Raise e ->
      isinstance e ExpectationNotMet = false).
Proof.
  assert (Hsel : forall args',
             fst (has_selector self args' kwargs w) = Raise e ->
             isinstance e ExpectationNotMet = false).
  { intros args'. rewrite has_selector_unfold.
    destruct (assert_selector self args' kwargs w) as [[v | e'] w'];
      [intros H; discriminate H | ].
    destruct (isinstance e' ExpectationNotMet) eqn:He'; simpl; intros H;
      [discriminate H | injection H as <-; exact He']. }
  assert (Htext : fst (has_text self args kwargs w) = Raise e ->
                  isinstance e ExpectationNotMet = false).
  { rewrite has_text_unfold.
    destruct (assert_text self args kwargs w) as [[v | e'] w'];
      [intros H; discriminate H | ].
    destruct (isinstance e' ExpectationNotMet) eqn:He'; simpl; intros H;
      [discriminate H | injection H as <-; exact He']. }
  repeat split; try exact Htext; apply Hsel.
Qed.

(** X4.  Under a synchronizer that ends with the outcome of an attempt,
    [assert_selector] and [assert_text] return nothing but [True] ("Returns:
    True" in their docstrings): a call that returns, returns [True].  So
    [has_text], which returns what [assert_text] returned, answers [False]
    only when [assert_text] raised an [ExpectationNotMet]. *)
Theorem assertions_return_only_True
  (S : Synchronizer Q) (Hs : outcome_of_an_attempt S)
  (self : node) (args : pyargs) (kwargs : pykwargs) (w w' : world) :
  (forall v, assert_selector self args kwargs w = (Return v, w') -> v = true)
  /\ (forall v, assert_text self args kwargs w = (Return v, w') -> v = true)
  /\ (forall v, has_text self args kwargs w = (Return v, w') ->
        (v = true /\ assert_text self args kwargs w = (Return true, w'))
        \/ (v = false /\ exists e,
              assert_text self args kwargs w = (Raise e, w')
              /\ isinstance e ExpectationNotMet = true)).
Proof.
  assert (Hsel : forall v, assert_selector self args kwargs w = (Return v, w') ->
                           v = true).
  { intros v. unfold assert_selector, bind.
    destruct (SelectorQuery args kwargs w) as [[q | e] w0];
      [ | intros H; discriminate H].
    destruct (Hs self bool (assert_selector_inner self q) w0) as [w1 ->].
    apply assert_selector_inner_returns_True. }
  assert (Htext : forall v, assert_text self args kwargs w = (Return v, w') ->
                            v = true).
  { intros v. unfold assert_text, bind.
    destruct (TextQuery args kwargs w) as [[q | e] w0];
      [ | intros H; discriminate H].
    destruct (Hs self bool (assert_text_inner self q) w0) as [w1 ->].
    apply assert_text_inner_returns_True. }
  split; [exact Hsel | split; [exact Htext | ]].
  intros v. rewrite has_text_unfold.
  destruct (assert_text self args kwargs w) as [[v0 | e] w1] eqn:Ha.
  - intros H. injection H as -> ->.
    pose proof (Htext v eq_refl) as ->. left. auto.
  - destruct (isinstance e ExpectationNotMet) eqn:He; intros H;
      [ | discriminate H].
    injection H as <- ->. right. split; [reflexivity | ]. exists e. auto.
Qed.

(** X5.  [has_selector] as a whole.  When the query is built, the
    resolution of the query returns Result Sets, and the synchronizer ends
    with the outcome of an attempt, [has_selector] does not raise: it
    returns whether the Result Set of that attempt is non-empty, [True] for
    a length other than 0 and [False] for length 0. *)
Theorem has_selector_tells_whether_an_attempt_found_an_element
  (S : Synchronizer Q) (Hs : outcome_of_an_attempt S)
  (self : node) (args : pyargs) (kwargs : pykwargs) (w w0 : world)
  (q : selector_query)
  (Hq : SelectorQuery args kwargs w = (Return q, w0))
  (Hres : forall w1, exists r w2, selector_resolve_for q self w1 = (Return r, w2)) :
  exists w1 r w2,
    selector_resolve_for q self w1 = (Return r, w2)
    /\ has_selector self args kwargs w = (Return (negb (Nat.eqb (len r) 0)), w2).
Proof.
  destruct (Hs self bool (assert_selector_inner self q) w0) as [w1 Hw1].
  destruct (Hres w1) as (r & w2 & Hr).
  exists w1, r, w2. split; [exact Hr | ].
  rewrite has_selector_unfold.
  unfold assert_selector. rewrite (bind_return _ Hq), Hw1.
  rewrite (assert_selector_inner_resolved Hr).
  destruct (Nat.eqb (len r) 0); reflexivity.
Qed.

(** X6.  [has_text] and [has_content] as a whole.  When the query is
    built, its resolution returns match states, and the synchronizer ends
    with the outcome of an attempt, neither raises: each returns the truth
    value of the match state of that attempt. *)
Theorem has_text_tells_whether_an_attempt_matched
  (S : Synchronizer Q) (Hs : outcome_of_an_attempt S)
  (self : node) (args : pyargs) (kwargs : pykwargs) (w w0 : world)
  (q : text_query)
  (Hq : TextQuery args kwargs w = (Return q, w0))
  (Hres : forall w1, exists m w2, text_resolve_for q self w1 = (Return m, w2)) :
  exists w1 m w2,
    text_resolve_for q self w1 = (Return m, w2)
    /\ has_text self args kwargs w = (Return (truthy m), w2)
    /\ has_content self args kwargs w = (Return (truthy m), w2).
Proof.
  destruct (Hs self bool (assert_text_inner self q) w0) as [w1 Hw1].
  destruct (Hres w1) as (m & w2 & Hr).
  exists w1, m, w2. split; [exact Hr | ].
  assert (Ht : has_text self args kwargs w = (Return (truthy m), w2)).
  { rewrite has_text_unfold.
    unfold assert_text. rewrite (bind_return _ Hq), Hw1.
    rewrite (assert_text_inner_resolved Hr).
    destruct (truthy m); reflexivity. }
  split; exact Ht.
Qed.

End Facade.
End FacadeMore.

(** ** More runs of the model *)

Module MoreRuns.
Import Model Engine Fixture.

(** Witness for X1: an error of a driver that derives from [Ambiguous] and
    from the built-in [TypeError]. *)
Lemma every_library_error_is_a_CapybaraError_witness :
  (In Ambiguous library_classes
   /\ isinstance (mk_exn (OtherClass "StaleMatch" [TypeError; Ambiguous]) "gone")
        Ambiguous = true)
  /\ isinstance (mk_exn (OtherClass "StaleMatch" [TypeError; Ambiguous]) "gone")
       CapybaraError = true.
Proof.
  split; [split; [vm_compute; tauto | reflexivity] | ].
  exact (proj1 (@HierarchyFacts.every_library_error_is_a_CapybaraError
                  (mk_exn (OtherClass "StaleMatch" [TypeError; Ambiguous]) "gone")
                  Ambiguous
                  (or_intror (or_intror (or_intror (or_introl eq_refl))))
                  eq_refl)).
Defined.

(** Witness for X2: [ExpectationNotMet] is in the family and is a leaf. *)
Lemma shape_of_the_library_hierarchy_witness :
  In ExpectationNotMet library_classes
  /\ (exists b, bases ExpectationNotMet = [b])
  /\ (issubclass ExpectationNotMet ElementNotFound = true <->
      In ExpectationNotMet [ElementNotFound; Ambiguous; ExpectationNotMet]).
Proof.
  split; [vm_compute; tauto | ].
  destruct (@HierarchyFacts.shape_of_the_library_hierarchy ExpectationNotMet
              (or_intror (or_intror (or_intror (or_intror (or_introl eq_refl))))))
    as (Hbase & Hfam & _).
  exact (conj Hbase Hfam).
Defined.

(** Witness for X4: the call that waits for the link returns, and returns
    [True]. *)
Lemma assertions_return_only_True_witness :
  exists v,
    @assert_selector queries spec_synchronizer 0 [PyStr "css"; PyStr "a"] []
      (loading 3 5) = (Return v, advance 3 (loading 3 5))
    /\ v = true.
Proof.
  exists true. split; [reflexivity | ].
  exact (proj1 (@FacadeMore.assertions_return_only_True
                  queries spec_synchronizer
                  spec_synchronizer_outcome_of_an_attempt
                  0 [PyStr "css"; PyStr "a"] [] (loading 3 5)
                  (advance 3 (loading 3 5)))
           true eq_refl).
Defined.

(** Witness for X5: the page with one link, asked for [a#bar]. *)
Lemma has_selector_tells_whether_an_attempt_found_an_element_witness :
  exists (w1 : dom_world) (r : result_set) (w2 : dom_world),
    resolve_selector {| kind := "css"; locator := "a#bar"; filters := [] |} 0 w1
    = (Return r, w2)
    /\ @has_selector queries spec_synchronizer 0
         [PyStr "css"; PyStr "a#bar"] [] (still with_link 5)
       = (Return (negb (Nat.eqb (List.length (elements r)) 0)), w2).
Proof.
  exact (@FacadeMore.has_selector_tells_whether_an_attempt_found_an_element
           queries spec_synchronizer spec_synchronizer_outcome_of_an_attempt
           0 [PyStr "css"; PyStr "a#bar"] [] (still with_link 5)
           (still with_link 5)
           {| kind := "css"; locator := "a#bar"; filters := [] |}
           eq_refl
           (fun w1 => ex_intro _ _ (ex_intro _ w1 eq_refl))).
Defined.

(** Witness for X6: the text of the page with one link. *)
Lemma has_text_tells_whether_an_attempt_matched_witness :
  exists (w1 : dom_world) (m : pyval) (w2 : dom_world),
    resolve_text {| expected := "labore ullamco"; exact := false |} 0 w1
    = (Return m, w2)
    /\ @has_text queries spec_synchronizer 0 [PyStr "labore ullamco"] []
         (still with_link 0) = (Return (truthy m), w2)
    /\ @has_content queries spec_synchronizer 0 [PyStr "labore ullamco"] []
         (still with_link 0) = (Return (truthy m), w2).
Proof.
  exact (@FacadeMore.has_text_tells_whether_an_attempt_matched
           queries spec_synchronizer spec_synchronizer_outcome_of_an_attempt
           0 [PyStr "labore ullamco"] [] (still with_link 0)
           (still with_link 0)
           {| expected := "labore ullamco"; exact := false |}
           eq_refl
           (fun w1 => ex_intro _ _ (ex_intro _ _ eq_refl))).
Defined.

End MoreRuns.
